(** * index.js: ticket workflow, admin gate and prefix commands

    A shallow embedding of [src/index.js] (a discord.js v14 bot) and the
    properties of its ticket life cycle.

    Conventions of the model.
    - JavaScript strings are Rocq [string]s; a character is a code unit in
      the 8-bit range (U+0000 to U+00FF), and [toLowerCase], [trim] and
      [parseInt] follow ECMAScript on that range.
    - Values read from [config.json] that the source inspects dynamically
      ([Array.isArray], truthiness) are kept as [Json] values.
    - The numbers of the source come from [parseInt] and [Math.min]: they
      are doubles whose value is an integer or an infinity ([Number]), the
      integers rounded to the nearest double as the runtime does; [NaN] is
      [None].
    - The builders of the SDK validate what they are given and throw; the
      lengths they accept are those of the SDK, and which colour the SDK
      resolves is left to the environment.
    - Every method of the SDK that the source calls is a [Call]; a run
      records the calls in order together with their outcome, and an
      environment decides which calls the platform accepts.
    - A handler is a computation in a state and exception monad; a
      promise is a value, so that [await p], [p.catch(...)], a promise
      that is returned and a promise that is dropped differ as they do in
      the source.
    - [console.error] and the builders leave no event (the builders of
      rows, buttons and menus are given literals only and never throw);
      the commands [ping] and [guess] and the registration of the slash
      commands are outside the model.
    - The welcome and log handlers and the verify button have texts and
      calls of their own, and run in the same kind of monad over a state
      of their own.

    The file has the model first (strings, configuration, the SDK, the
    handlers), then the vocabulary of the statements, then the lemmas and
    the theorems C1 to C10, then the further theorems X1 to X21. *)

From Stdlib Require Import List String Ascii ZArith Bool Lia Arith.
Import ListNotations.

Open Scope string_scope.
Open Scope Z_scope.

(* ===================================================================== *)
(** ** Strings, as the source uses them *)
(* ===================================================================== *)

Module JsString.

(** [String.prototype.toLowerCase] on one code unit below 256: [A]..[Z]
    (U+0041 to U+005A) and the capital letters of Latin-1 (U+00C0 to
    U+00DE, the multiplication sign U+00D7 apart) move up by 32,
    everything else is left alone. *)
Definition lower_char (c : ascii) : ascii :=
  let n := nat_of_ascii c in
  if ((Nat.leb 65 n && Nat.leb n 90)
      || (Nat.leb 192 n && Nat.leb n 222 && negb (Nat.eqb n 215)))%bool
  then ascii_of_nat (n + 32) else c.

Fixpoint toLowerCase (s : string) : string :=
  match s with
  | EmptyString => EmptyString
  | String c s' => String (lower_char c) (toLowerCase s')
  end.

(** [s.startsWith(p)]. *)
Definition startsWith (s p : string) : bool := String.prefix p s.

(** [s.slice(n)] for [0 <= n]. *)
Fixpoint slice (n : nat) (s : string) : string :=
  match n, s with
  | O, _ => s
  | S n', String _ s' => slice n' s'
  | S _, EmptyString => EmptyString
  end.

(** White space and line terminators of ECMAScript below 256:
    TAB, LF, VT, FF, CR, SP, NBSP.  [trim] and [parseInt] strip all of
    them; the pattern [/ +/] only splits on SP. *)
Definition is_ws (c : ascii) : bool :=
  let n := nat_of_ascii c in
  (Nat.eqb n 9 || Nat.eqb n 10 || Nat.eqb n 11 || Nat.eqb n 12
   || Nat.eqb n 13 || Nat.eqb n 32 || Nat.eqb n 160)%bool.

Fixpoint skip_ws (s : string) : string :=
  match s with
  | String c s' => if is_ws c then skip_ws s' else s
  | EmptyString => EmptyString
  end.

Fixpoint rev_string (s acc : string) : string :=
  match s with
  | EmptyString => acc
  | String c s' => rev_string s' (String c acc)
  end.

(** [s.trim()]. *)
Definition trim (s : string) : string :=
  rev_string (skip_ws (rev_string (skip_ws s) "")) "".

Definition is_space (c : ascii) : bool := Nat.eqb (nat_of_ascii c) 32.

(** [s.split(/ +/)]: [cur] is the piece being read, [in_sep] tells that
    the previous character belonged to a run of spaces.  A leading or a
    trailing run yields an empty piece, and the empty string yields
    [[""]], as in ECMAScript. *)
Fixpoint split_go (s cur : string) (in_sep : bool) : list string :=
  match s with
  | EmptyString => [cur]
  | String c s' =>
      if is_space c
      then (if in_sep then split_go s' cur true
            else cur :: split_go s' "" true)
      else split_go s' (cur ++ String c "") false
  end.

Definition split_spaces (s : string) : list string := split_go s "" false.

(** [a.join(sep)]. *)
Fixpoint join (sep : string) (l : list string) : string :=
  match l with
  | [] => ""
  | [x] => x
  | x :: rest => x ++ sep ++ join sep rest
  end.

(** Value of a digit in radix 10 or 16, [None] when [c] is no digit of
    that radix. *)
Definition digit_of (radix : Z) (c : ascii) : option Z :=
  let n := Z.of_nat (nat_of_ascii c) in
  let v :=
    if (48 <=? n) && (n <=? 57) then Some (n - 48)
    else if (97 <=? n) && (n <=? 102) then Some (n - 87)
    else if (65 <=? n) && (n <=? 70) then Some (n - 55)
    else None in
  match v with
  | Some d => if d <? radix then Some d else None
  | None => None
  end.

(** The longest prefix of digits, read most significant first; [acc] is
    [None] until a digit was seen. *)
Fixpoint parse_digits (radix : Z) (s : string) (acc : option Z) : option Z :=
  match s with
  | EmptyString => acc
  | String c s' =>
      match digit_of radix c with
      | Some d =>
          parse_digits radix s'
            (Some (radix * (match acc with Some a => a | None => 0 end) + d))
      | None => acc
      end
  end.

(** A number of the source that is not [NaN]: a double whose value is an
    integer, or an infinity. *)
Inductive Number : Type :=
| Fin (z : Z)
| Inf (negative : bool).

(** The double nearest to an integer, ties to the even significand: an
    integer below 2^53 in absolute value is a double; a larger one keeps
    its 53 leading bits; one that rounds to 2^1024 or beyond is an
    infinity. *)
Definition round_double (z : Z) : Number :=
  let a := Z.abs z in
  if a <? 2 ^ 53 then Fin z
  else
    let e := Z.log2 a - 52 in
    let q := a / 2 ^ e in
    let r := a mod 2 ^ e in
    let half := 2 ^ (e - 1) in
    let q' :=
      if r <? half then q
      else if half <? r then q + 1
      else if Z.even q then q else q + 1 in
    let v := q' * 2 ^ e in
    if 2 ^ 1024 <=? v then Inf (z <? 0) else Fin (Z.sgn z * v).

(** [Math.min] of two numbers. *)
Definition number_min (a b : Number) : Number :=
  match a, b with
  | Inf true, _ => Inf true
  | _, Inf true => Inf true
  | Inf false, x => x
  | x, Inf false => x
  | Fin x, Fin y => Fin (Z.min x y)
  end.

(** [a <= b]. *)
Definition number_le (a b : Number) : Prop :=
  match a, b with
  | Inf true, _ => True
  | _, Inf false => True
  | Fin x, Fin y => x <= y
  | _, _ => False
  end.

(** Truthiness of a number that is not [NaN]: only zero is falsy. *)
Definition number_truthy (a : Number) : bool :=
  match a with
  | Fin z => negb (z =? 0)
  | Inf _ => true
  end.

(** [parseInt(s)] with no radix argument: leading white space, a sign,
    an optional [0x]/[0X], then digits; the integer read is converted to a
    double.  [None] is [NaN]. *)
Definition parseInt_string (s : string) : option Number :=
  let s0 := skip_ws s in
  let '(sign, s1) :=
    match s0 with
    | String "-" r => (-1, r)
    | String "+" r => (1, r)
    | _ => (1, s0)
    end in
  let '(radix, s2) :=
    match s1 with
    | String "0" (String "x" r) => (16, r)
    | String "0" (String "X" r) => (16, r)
    | _ => (10, s1)
    end in
  option_map (fun m => round_double (sign * m)) (parse_digits radix s2 None).

(** [parseInt(a)] where [a] may be [undefined] (an array read past the
    end): [undefined] is converted to the text [undefined], which has no
    digit. *)
Definition parseInt (a : option string) : option Number :=
  match a with
  | Some s => parseInt_string s
  | None => parseInt_string "undefined"
  end.

End JsString.

Import JsString.

(* ===================================================================== *)
(** ** Configuration and platform data *)
(* ===================================================================== *)

(** A value of [config.json]. *)
#[local] Set Warnings "-register-all".
Inductive Json : Type :=
| JNull
| JBool (b : bool)
| JNum (n : Z)
| JStr (s : string)
| JArr (items : list Json)
| JObj (fields : list (string * Json)).

(** Truthiness of a configuration entry; [None] is a missing key
    ([undefined]).  Arrays and objects are truthy even when empty. *)
Definition truthy (v : option Json) : bool :=
  match v with
  | None => false
  | Some JNull => false
  | Some (JBool b) => b
  | Some (JNum n) => negb (n =? 0)
  | Some (JStr s) => negb (String.eqb s "")
  | Some (JArr _) => true
  | Some (JObj _) => true
  end.

(** Truthiness of an entry that is a string when present. *)
Definition truthy_str (v : option string) : bool :=
  match v with
  | Some s => negb (String.eqb s "")
  | None => false
  end.

(** [Array.prototype.includes] with a string argument: only a string
    element can be the same value. *)
Fixpoint includes (l : list Json) (s : string) : bool :=
  match l with
  | [] => false
  | JStr x :: l' => String.eqb x s || includes l' s
  | _ :: l' => includes l' s
  end.

(** The entries of [config.json] that the modelled code reads.  [admins],
    [handlersRole] and [rolesToMention] are tested with [Array.isArray] in
    the source, and [footerText], [embedColor], [ticketTitle] and
    [ticketMessage] are handed to builders that validate them: these stay
    untyped.  The others are strings when present. *)
Record Config : Type := {
  admins : option Json;
  handlersRole : option Json;
  rolesToMention : option Json;
  ticketCategory : option string;
  logChannel : option string;
  prefix : option string;
  footerText : option Json;
  embedColor : option Json;
  ticketTitle : option Json;
  ticketMessage : option Json
}.

Record User : Type := {
  user_id : string;
  username : string;
  tag : string
}.

(** A guild channel of the cache.  [ch_sendable] tells whether the object
    has a [send] method (text based channels have, categories have not). *)
Record Channel : Type := {
  ch_id : string;
  ch_name : string;
  ch_sendable : bool
}.

Inductive Perm : Type := ViewChannel | SendMessages | ManageGuild.

Inductive ChannelType : Type := GuildText | GuildVoice | GuildCategory.

(** One entry of [permissionOverwrites]. *)
Record Overwrite : Type := {
  ow_id : Json;
  ow_allow : list Perm;
  ow_deny : list Perm
}.

(** The argument of [guild.channels.create]. *)
Record CreateOpts : Type := {
  o_name : string;
  o_type : ChannelType;
  o_overwrites : list Overwrite;
  o_parent : option string
}.

(** A message of a channel history, as [messages.fetch] returns it. *)
Record Msg : Type := {
  createdTimestamp : Z;
  author_tag : string;
  content : string
}.

(* ===================================================================== *)
(** ** Utilities (lines 75-78) *)
(* ===================================================================== *)

(** [isAdmin(id)]: [false] unless [config.admins] is an array, else
    [config.admins.includes(String(id))]. *)
Definition isAdmin (cfg : Config) (id : string) : bool :=
  match admins cfg with
  | Some (JArr l) => includes l id
  | _ => false
  end.

(** The value of line 338,
    [isAdmin(message.author.id) || permissions.has(ManageGuild)], when the
    member is at hand; [message_allow] below is its evaluation by the
    handler, which throws when the member is missing. *)
Definition allow (cfg : Config) (id : string) (manage : bool) : bool :=
  isAdmin cfg id || manage.

(** Lines 143 and 173: the test that guards the denial,
    [!memberPermissions?.has(ManageGuild) && !isAdmin(user.id)], where
    [memberPermissions] may be [null] ([None]). *)
Definition denied (cfg : Config) (id : string) (manage : option bool) : bool :=
  negb (match manage with Some b => b | None => false end)
  && negb (isAdmin cfg id).

(* ===================================================================== *)
(** ** Ticket naming and channel options (lines 263, 270-287) *)
(* ===================================================================== *)

(** Right-hand side of the comparison of line 263. *)
Definition ticket_name (u : User) : string :=
  "ticket-" ++ toLowerCase (username u).

(** The predicate given to [cache.find] at line 263. *)
Definition is_ticket_of (u : User) (c : Channel) : bool :=
  String.eqb (toLowerCase (ch_name c)) (ticket_name u).

Definition allow_view_send (id : Json) : Overwrite :=
  {| ow_id := id; ow_allow := [ViewChannel; SendMessages]; ow_deny := [] |}.

(** Lines 281-287: one overwrite per element of a non-empty array, else
    one overwrite for the value itself when it is truthy. *)
Definition handler_overwrites (cfg : Config) : list Overwrite :=
  match handlersRole cfg with
  | Some (JArr (r :: rs)) => map allow_view_send (r :: rs)
  | Some v => if truthy (Some v) then [allow_view_send v] else []
  | None => []
  end.

(** Lines 270-287: the options handed to [guild.channels.create]. *)
Definition ticket_opts (cfg : Config) (guild_id : string) (u : User) : CreateOpts :=
  {| o_name := toLowerCase ("ticket-" ++ username u);
     o_type := GuildText;
     o_overwrites :=
       [ {| ow_id := JStr guild_id; ow_allow := []; ow_deny := [ViewChannel] |};
         allow_view_send (JStr (user_id u)) ]
       ++ handler_overwrites cfg;
     o_parent :=
       if truthy_str (ticketCategory cfg) then ticketCategory cfg else None |}.

(* ===================================================================== *)
(** ** Embeds (lines 94-99, 148-152, 177, 291-296) *)
(* ===================================================================== *)

(** What a setter of an embed builder is given: a literal of the source,
    a template literal (the number of code units of its own and the
    strings it interpolates), or a value of the configuration. *)
Inductive Arg : Type :=
| Literal
| Template (fixed : nat) (parts : list string)
| Configured (v : Json).

(** [config.x || literal]. *)
Definition or_literal (v : option Json) : Arg :=
  match v with
  | Some j => if truthy v then Configured j else Literal
  | None => Literal
  end.

(** [config.x || default] for a default that is a string. *)
Definition or_string (v : option Json) (default : string) : Json :=
  match v with
  | Some j => if truthy v then j else JStr default
  | None => JStr default
  end.

(** [`${user}`] and [`${member}`]: the mention of the id. *)
Definition mention (id : string) : string := "<@" ++ id ++ ">".

(** What the four embeds of the source are built from; [e_footer] is the
    [text] given to [setFooter], [None] when the embed has no footer. *)
Record Embed : Type := {
  e_title : Arg;
  e_description : Arg;
  e_color : Json;
  e_footer : option Json
}.

(** The check of [setTitle], [setDescription] and [setFooter]: a string
    of 1 to [max] code units.  The literals of the source have between 4
    and 40 code units. *)
Definition text_ok (max : nat) (a : Arg) : bool :=
  match a with
  | Literal => true
  | Template fixed parts =>
      let n := (fixed + list_sum (map String.length parts))%nat in
      Nat.leb 1 n && Nat.leb n max
  | Configured (JStr t) => Nat.leb 1 (String.length t) && Nat.leb (String.length t) max
  | Configured _ => false
  end.

(** The embed is built: no setter throws.  [resolves] tells the values
    that [resolveColor] accepts. *)
Definition embed_ok (resolves : Json -> bool) (e : Embed) : bool :=
  text_ok 256 (e_title e)
  && text_ok 4096 (e_description e)
  && resolves (e_color e)
  && match e_footer e with
     | Some t => text_ok 2048 (Configured t)
     | None => true
     end.

(** Lines 148-152. *)
Definition panel_embed (cfg : Config) : Embed :=
  {| e_title := or_literal (ticketTitle cfg);
     e_description := or_literal (ticketMessage cfg);
     e_color := or_string (embedColor cfg) "#2b2d31";
     e_footer := Some (or_string (footerText cfg) "") |}.

(** Line 177. *)
Definition verify_embed (cfg : Config) : Embed :=
  {| e_title := Literal;
     e_description := Literal;
     e_color := or_string (embedColor cfg) "#2b2d31";
     e_footer := None |}.

(** Lines 291-296. *)
Definition ticket_embed (cfg : Config) (u : User) (type : string) : Embed :=
  {| e_title := Literal;
     e_description := Template 25 [mention (user_id u); type];
     e_color := or_string (embedColor cfg) "#2b2d31";
     e_footer := Some (or_string (footerText cfg) "") |}.

(** Lines 94-99. *)
Definition welcome_embed (cfg : Config) (member : User) : Embed :=
  {| e_title := Literal;
     e_description := Template 14 [mention (user_id member)];
     e_color := or_string (embedColor cfg) "#2b2d31";
     e_footer := Some (or_string (footerText cfg) "") |}.

(* ===================================================================== *)
(** ** Transcript (lines 225-226) *)
(* ===================================================================== *)

Section Transcript.

(** [new Date(ms).toISOString()], a built-in of the runtime. *)
Variable toISOString : Z -> string.

(** The arrow function of line 225. *)
Definition format_line (m : Msg) : string :=
  "[" ++ toISOString (createdTimestamp m) ++ "] " ++ author_tag m ++ ": "
  ++ (if String.eqb (content m) "" then "[embed/attachment]" else content m).

(** [msgs.map(...).reverse().join('\n')]. *)
Definition transcript_lines (msgs : list Msg) : list string :=
  rev (map format_line msgs).

Definition transcript (msgs : list Msg) : string :=
  join (String (ascii_of_nat 10) "") (transcript_lines msgs).

End Transcript.

(** [`transcript-${ch.id}.txt`]. *)
Definition transcript_file (c : Channel) : string :=
  "transcript-" ++ ch_id c ++ ".txt".

(* ===================================================================== *)
(** ** Texts, calls and events *)
(* ===================================================================== *)

(** The texts the bot sends, one constructor per literal or template of
    the source (the line is given); the interpolated values are the
    arguments. *)
Inductive Text : Type :=
| DenySetupTicket                       (* 144 *)
| PanelCreated                          (* 168 *)
| TicketPanel                           (* 169: embed, menu row, button row *)
| DenyVerifySetup                       (* 174 *)
| VerifyPanelCreated                    (* 181 *)
| VerifyPanel                           (* 182 *)
| ClosingNotice                         (* 220 *)
| TranscriptNote (name closer file : string)   (* 233, with the file attached *)
| HandlerError                          (* 251 *)
| HasOpenTicket (existing : Channel)    (* 266 *)
| TicketIntro (u : User) (reason : string) (mentions : option Json)  (* 308 *)
| LogNewTicket (who : string) (ch : Channel)   (* 313 *)
| TicketCreated (ch : Channel)          (* 317 *)
| CreateError                           (* 321, 323 *)
| Cleared (amt : Number)                (* 343 *)
| MentionSomeone                        (* 349, 356 *)
| BanFailed                             (* 350 *)
| BanDone                               (* 351 *)
| KickFailed                            (* 357 *)
| KickDone.                             (* 358 *)

(** The two callbacks handed to [setTimeout] (lines 221 and 344), with the
    variables they capture. *)
Inductive Task : Type :=
| CloseTask (ch : Channel) (closer : User)
| DeleteSent (ch : Channel) (t : Text).

(** The methods of the SDK and of [fs] that the source calls. *)
Inductive Call : Type :=
| deferReply (ephemeral : bool)
| reply (t : Text) (ephemeral : bool)
| editReply (t : Text) (ephemeral : bool)
| channels_create (o : CreateOpts)
| send (ch : Channel) (t : Text)
| messages_fetch (ch : Channel) (limit : Z)
| writeFileSync (file data : string)
| unlinkSync (file : string)
| channel_delete (ch : Channel)
| bulkDelete (ch : Channel) (n : Number)
| message_reply (t : Text)
| member_ban (target by_tag : string)
| member_kick (target : string)
| message_delete (ch : Channel) (t : Text).

(** What a run leaves behind: the calls in order, each with whether it
    succeeded, and the timers set and fired. *)
Inductive Event : Type :=
| Called (c : Call) (ok : bool)
| Scheduled (ms : Z) (t : Task)
| Fired (ms : Z) (t : Task).

Inductive Err : Type :=
| ApiError (c : Call)     (* a promise of the SDK rejected, or [fs] threw *)
| TypeError               (* a property of [null] or a missing method *)
| ValidationError.        (* a builder of the SDK refused its argument *)

(** A settled promise. *)
Inductive Promise (A : Type) : Type :=
| Resolved (a : A)
| Rejected (e : Err).
Arguments Resolved {A} a.
Arguments Rejected {A} e.

(** The environment of a run: which call the platform (or the file
    system) accepts at which step, the id it gives to a channel created at
    a step, the recent messages of a channel newest first, the
    runtime's [Date.prototype.toISOString], and the values that the
    SDK's [resolveColor] turns into a colour instead of throwing. *)
Record Env : Type := {
  accepts : nat -> Call -> bool;
  new_id : nat -> string;
  recent : Channel -> list Msg;
  toISOString : Z -> string;
  color_ok : Json -> bool
}.

(** The state a handler runs in: the channel cache of the guild in
    insertion order, the [replied] and [deferred] flags of the interaction
    being handled, a step counter, the events so far and the pending
    timers. *)
Record St : Type := {
  channels : list Channel;
  replied : bool;
  deferred : bool;
  clock : nat;
  trace : list Event;
  timers : list (Z * Task)
}.

Definition with_channels (l : list Channel) (st : St) : St :=
  {| channels := l; replied := replied st; deferred := deferred st;
     clock := clock st; trace := trace st; timers := timers st |}.

Definition with_replied (b : bool) (st : St) : St :=
  {| channels := channels st; replied := b; deferred := deferred st;
     clock := clock st; trace := trace st; timers := timers st |}.

Definition with_deferred (b : bool) (st : St) : St :=
  {| channels := channels st; replied := replied st; deferred := b;
     clock := clock st; trace := trace st; timers := timers st |}.

Definition with_timers (l : list (Z * Task)) (st : St) : St :=
  {| channels := channels st; replied := replied st; deferred := deferred st;
     clock := clock st; trace := trace st; timers := l |}.

Definition emit (e : Event) (st : St) : St :=
  {| channels := channels st; replied := replied st; deferred := deferred st;
     clock := clock st; trace := trace st ++ [e]; timers := timers st |}.

Definition tick (st : St) : St :=
  {| channels := channels st; replied := replied st; deferred := deferred st;
     clock := S (clock st); trace := trace st; timers := timers st |}.

(** A fresh interaction in a guild with the given channels. *)
Definition initial (chs : list Channel) : St :=
  {| channels := chs; replied := false; deferred := false;
     clock := O; trace := []; timers := [] |}.

(* ===================================================================== *)
(** ** The monad of handlers: state and exceptions *)
(* ===================================================================== *)

Inductive Res (A : Type) : Type :=
| Ok (a : A)
| Throw (e : Err).
Arguments Ok {A} a.
Arguments Throw {A} e.

Definition M (A : Type) : Type := St -> Res A * St.

Definition ret {A} (a : A) : M A := fun st => (Ok a, st).

Definition throw {A} (e : Err) : M A := fun st => (Throw e, st).

Definition bind {A B} (m : M A) (k : A -> M B) : M B :=
  fun st =>
    match m st with
    | (Ok a, st') => k a st'
    | (Throw e, st') => (Throw e, st')
    end.

Declare Scope js_scope.
Delimit Scope js_scope with js.
Notation "x <- m ;; k" := (bind m (fun x => k))
  (at level 61, m at next level, right associativity) : js_scope.
Notation "m ;; k" := (bind m (fun _ => k))
  (at level 61, right associativity) : js_scope.
Open Scope js_scope.

Definition get : M St := fun st => (Ok st, st).

Definition modify (f : St -> St) : M unit := fun st => (Ok tt, f st).

(** [try { body } catch (e) { handler }]. *)
Definition try_catch {A} (body : M A) (handler : Err -> M A) : M A :=
  fun st =>
    match body st with
    | (Ok a, st') => (Ok a, st')
    | (Throw e, st') => handler e st'
    end.

(** [await p]: a rejection is thrown at the [await]. *)
Definition await {A} (p : M (Promise A)) : M A :=
  r <- p ;;
  match r with
  | Resolved a => ret a
  | Rejected e => throw e
  end.

(** [p.catch(() => {})]: the promise that follows never rejects. *)
Definition catch_noop {A} (p : M (Promise A)) : M (Promise unit) :=
  _ <- p ;; ret (Resolved tt).

(** [p.catch(e => h)] where [h] yields a promise: a rejection of [p] is
    replaced by the outcome of [h]. *)
Definition catch_with {A} (p : M (Promise A)) (h : M (Promise unit))
  : M (Promise unit) :=
  r <- p ;;
  match r with
  | Resolved _ => ret (Resolved tt)
  | Rejected _ => h
  end.

(** A call of an [async] function seen from its caller: it yields a
    promise, and what the body throws rejects that promise. *)
Definition async {A} (body : M A) : M (Promise A) :=
  fun st =>
    match body st with
    | (Ok a, st') => (Ok (Resolved a), st')
    | (Throw e, st') => (Ok (Rejected e), st')
    end.

(** [setTimeout(task, ms)]. *)
Definition setTimeout (ms : Z) (t : Task) : M unit :=
  modify (fun st => with_timers (timers st ++ [(ms, t)]) (emit (Scheduled ms t) st)).

(* ===================================================================== *)
(** ** The SDK, as the source relies on it *)
(* ===================================================================== *)

Section Bot.

Variable env : Env.
Variable config : Config.

(** One call: it succeeds when the SDK lets it through ([guard]) and the
    environment accepts it at this step; the call and its outcome are
    recorded. *)
Definition perform (guard : bool) (c : Call) : M bool :=
  fun st =>
    let ok := guard && accepts env (clock st) c in
    (Ok ok, tick (emit (Called c ok) st)).

Definition settle (ok : bool) (c : Call) : Promise unit :=
  if ok then Resolved tt else Rejected (ApiError c).

(** [interaction.reply]: rejected by the SDK once the interaction is
    replied or deferred; sets [replied] when it succeeds. *)
Definition interaction_reply (t : Text) (eph : bool) : M (Promise unit) :=
  st <- get ;;
  ok <- perform (negb (replied st || deferred st)) (reply t eph) ;;
  (if ok then modify (with_replied true) else ret tt) ;;
  ret (settle ok (reply t eph)).

(** [interaction.deferReply]: same guard; sets [deferred]. *)
Definition interaction_deferReply (eph : bool) : M (Promise unit) :=
  st <- get ;;
  ok <- perform (negb (replied st || deferred st)) (deferReply eph) ;;
  (if ok then modify (with_deferred true) else ret tt) ;;
  ret (settle ok (deferReply eph)).

(** [interaction.editReply]: rejected by the SDK unless the interaction
    is replied or deferred; sets [replied] when it succeeds. *)
Definition interaction_editReply (t : Text) (eph : bool) : M (Promise unit) :=
  st <- get ;;
  ok <- perform (replied st || deferred st) (editReply t eph) ;;
  (if ok then modify (with_replied true) else ret tt) ;;
  ret (settle ok (editReply t eph)).

(** [guild.channels.cache.find(p)]: the first channel in insertion
    order. *)
Definition cache_find (p : Channel -> bool) : M (option Channel) :=
  st <- get ;; ret (List.find p (channels st)).

(** [guild.channels.cache.get(id)]; an absent id finds nothing. *)
Definition cache_get (id : option string) : M (option Channel) :=
  match id with
  | Some k => cache_find (fun c => String.eqb (ch_id c) k)
  | None => ret None
  end.

(** [guild.channels.create(opts)]: the channel the platform made has the
    requested name, is text based, and enters the cache last. *)
Definition guild_channels_create (o : CreateOpts) : M (Promise Channel) :=
  st <- get ;;
  ok <- perform true (channels_create o) ;;
  if ok then
    let c := {| ch_id := new_id env (clock st); ch_name := o_name o;
                ch_sendable := true |} in
    modify (fun s => with_channels (channels s ++ [c]) s) ;;
    ret (Resolved c)
  else ret (Rejected (ApiError (channels_create o))).

(** [ch.send(text)]: a [TypeError] when the object has no such method. *)
Definition channel_send (c : Channel) (t : Text) : M (Promise unit) :=
  if ch_sendable c then
    ok <- perform true (send c t) ;; ret (settle ok (send c t))
  else throw TypeError.

(** [ch.messages.fetch({ limit })]: the most recent messages, newest
    first. *)
Definition channel_messages_fetch (c : Channel) (limit : Z)
  : M (Promise (list Msg)) :=
  ok <- perform true (messages_fetch c limit) ;;
  if ok then ret (Resolved (firstn (Z.to_nat limit) (recent env c)))
  else ret (Rejected (ApiError (messages_fetch c limit))).

(** [ch.delete()]: the channel leaves the cache when it succeeds. *)
Definition channel_del (c : Channel) : M (Promise unit) :=
  ok <- perform true (channel_delete c) ;;
  (if ok then
     modify (fun s =>
       with_channels
         (filter (fun x => negb (String.eqb (ch_id x) (ch_id c))) (channels s)) s)
   else ret tt) ;;
  ret (settle ok (channel_delete c)).

(** [fs.writeFileSync] and [fs.unlinkSync] throw when they fail. *)
Definition fs_writeFileSync (file data : string) : M unit :=
  ok <- perform true (writeFileSync file data) ;;
  if ok then ret tt else throw (ApiError (writeFileSync file data)).

Definition fs_unlinkSync (file : string) : M unit :=
  ok <- perform true (unlinkSync file) ;;
  if ok then ret tt else throw (ApiError (unlinkSync file)).

(** The remaining methods only succeed or reject. *)
Definition simple_call (c : Call) : M (Promise unit) :=
  ok <- perform true c ;; ret (settle ok c).

(** [new EmbedBuilder().setTitle(...)...]: a setter that refuses its
    argument throws. *)
Definition build (e : Embed) : M unit :=
  if embed_ok (color_ok env) e then ret tt else throw ValidationError.

(* =================================================================== *)
(** ** [safeReply] (lines 80-87) *)
(* =================================================================== *)

Definition safeReply (t : Text) (eph : bool) : M unit :=
  st <- get ;;
  if replied st || deferred st then
    try_catch (await (interaction_editReply t eph)) (fun _ => ret tt)
  else
    try_catch (await (interaction_reply t eph)) (fun _ => ret tt).

(* =================================================================== *)
(** ** [createTicket] (lines 257-326) *)
(* =================================================================== *)

(** The part of an interaction that the handlers read. *)
Inductive Kind : Type :=
| SetupTicket                 (* slash command setup_ticket *)
| VerifySetup                 (* slash command verify_setup *)
| TicketMenu (value : string) (* select menu ticket_menu, values[0] *)
| TicketButton                (* button ticket_button *)
| CloseTicket.                (* button close_ticket *)

Record Interaction : Type := {
  i_user : User;
  i_guild_id : string;
  i_channel : Channel;
  memberPermissions : option bool;  (* [None]: null; else has(ManageGuild) *)
  i_kind : Kind
}.

(** Lines 311-314: the log line is sent and its promise is dropped. *)
Definition log_new_ticket (u : User) (ch : Channel) : M unit :=
  if truthy_str (logChannel config) then
    log <- cache_get (logChannel config) ;;
    match log with
    | Some l => _ <- channel_send l (LogNewTicket (tag u) ch) ;; ret tt
    | None => ret tt
    end
  else ret tt.

(** The [try] block; its value is the promise that is returned. *)
Definition createTicket_try (i : Interaction) (type : string)
  : M (Promise unit) :=
  let user := i_user i in
  existing <- cache_find (is_ticket_of user) ;;
  match existing with
  | Some ex => interaction_editReply (HasOpenTicket ex) true
  | None =>
      let opts := ticket_opts config (i_guild_id i) user in
      ch <- await (guild_channels_create opts) ;;
      build (ticket_embed config user type) ;;
      await (channel_send ch (TicketIntro user type (rolesToMention config))) ;;
      log_new_ticket user ch ;;
      interaction_editReply (TicketCreated ch) true
  end.

(** The [catch] block ([console.error] leaves no event). *)
Definition createTicket_catch (_ : Err) : M (Promise unit) :=
  st <- get ;;
  if negb (replied st) && negb (deferred st) then
    try_catch (interaction_reply CreateError true)
              (fun _ => ret (Resolved tt))
  else
    try_catch (interaction_editReply CreateError true)
              (fun _ => ret (Resolved tt)).

(** The promise returned from inside [try] settles outside of it. *)
Definition createTicket (i : Interaction) (type : string) : M unit :=
  await (try_catch (createTicket_try i type) createTicket_catch).

(* =================================================================== *)
(** ** The interaction handler (lines 125-254) *)
(* =================================================================== *)

Definition interaction_try (i : Interaction) : M (Promise unit) :=
  match i_kind i with
  | SetupTicket =>
      if denied config (user_id (i_user i)) (memberPermissions i) then
        await (interaction_reply DenySetupTicket true) ;;
        ret (Resolved tt)
      else
        build (panel_embed config) ;;
        await (interaction_reply PanelCreated true) ;;
        channel_send (i_channel i) TicketPanel
  | VerifySetup =>
      if denied config (user_id (i_user i)) (memberPermissions i) then
        await (interaction_reply DenyVerifySetup true) ;;
        ret (Resolved tt)
      else
        build (verify_embed config) ;;
        await (interaction_reply VerifyPanelCreated true) ;;
        channel_send (i_channel i) VerifyPanel
  | TicketMenu value =>
      await (interaction_deferReply true) ;;
      async (createTicket i value)
  | TicketButton =>
      await (interaction_deferReply true) ;;
      async (createTicket i "general")
  | CloseTicket =>
      await (interaction_deferReply true) ;;
      await (catch_noop (interaction_editReply ClosingNotice false)) ;;
      setTimeout 5000 (CloseTask (i_channel i) (i_user i)) ;;
      ret (Resolved tt)
  end.

Definition interaction_catch (_ : Err) : M (Promise unit) :=
  st <- get ;;
  if negb (replied st) && negb (deferred st) then
    try_catch (await (interaction_reply HandlerError true)) (fun _ => ret tt) ;;
    ret (Resolved tt)
  else ret (Resolved tt).

Definition onInteraction (i : Interaction) : M unit :=
  await (try_catch (interaction_try i) interaction_catch).

(* =================================================================== *)
(** ** The timer callbacks (lines 221-244 and 344) *)
(* =================================================================== *)

Definition forward_transcript (ch : Channel) (closer : User) (file : string)
  : M unit :=
  if truthy_str (logChannel config) then
    logCh <- cache_get (logChannel config) ;;
    match logCh with
    | Some l =>
        await (catch_noop
                 (channel_send l (TranscriptNote (ch_name ch) (tag closer) file))) ;;
        ret tt
    | None => ret tt
    end
  else ret tt.

Definition close_task (ch : Channel) (closer : User) : M unit :=
  try_catch
    (msgs <- await (channel_messages_fetch ch 100) ;;
     let lines := transcript (toISOString env) msgs in
     let filename := transcript_file ch in
     fs_writeFileSync filename lines ;;
     forward_transcript ch closer filename ;;
     await (catch_noop (channel_del ch)) ;;
     fs_unlinkSync filename)
    (fun _ => await (catch_noop (channel_del ch))).

Definition run_task (t : Task) : M unit :=
  match t with
  | CloseTask ch closer => close_task ch closer
  | DeleteSent ch txt =>
      await (catch_noop (simple_call (message_delete ch txt)))
  end.

(** The pending timers expire in the order they were set; what a
    callback throws is lost. *)
Fixpoint fire_all (l : list (Z * Task)) : M unit :=
  match l with
  | [] => ret tt
  | (ms, t) :: rest =>
      modify (emit (Fired ms t)) ;;
      try_catch (run_task t) (fun _ => ret tt) ;;
      fire_all rest
  end.

Definition fire_timers : M unit :=
  st <- get ;;
  modify (with_timers []) ;;
  fire_all (timers st).

(* =================================================================== *)
(** ** The prefix commands (lines 329-360) *)
(* =================================================================== *)

Record Message : Type := {
  m_in_guild : bool;                 (* message.guild is set *)
  m_author : User;
  m_author_bot : bool;
  m_content : string;
  m_member_manage : option bool;     (* [None]: message.member is null *)
  m_channel : Channel;
  m_mention : option string          (* mentions.members.first() *)
}.

Definition command_prefix : string :=
  match prefix config with
  | Some p => if truthy_str (Some p) then p else "!"
  | None => "!"
  end.

(** Line 341: [parseInt(args[0]) || 5]. *)
Definition clear_amount (args : list string) : Number :=
  match parseInt (nth_error args 0) with
  | Some n => if number_truthy n then n else Fin 5
  | None => Fin 5
  end.

(** Line 338; reading [message.member.permissions] throws when the
    member is [null] and the left operand was false. *)
Definition message_allow (m : Message) : M bool :=
  if isAdmin config (user_id (m_author m)) then ret true
  else match m_member_manage m with
       | Some b => ret b
       | None => throw TypeError
       end.

(** [true] when the block executed a [return]. *)
Definition moderation_block (m : Message) (act : string -> Call)
    (failed done : Text) : M bool :=
  match m_mention m with
  | None => await (simple_call (message_reply MentionSomeone)) ;; ret true
  | Some target =>
      await (catch_with (simple_call (act target))
                        (simple_call (message_reply failed))) ;;
      simple_call (message_reply done) ;;
      ret false
  end.

(** Lines 334-335: the command word, lower-cased, and its arguments. *)
Definition parse_command (content : string) : string * list string :=
  let args :=
    split_spaces (trim (slice (String.length command_prefix) content)) in
  (toLowerCase (hd "" args), tl args).

Definition onMessage (m : Message) : M unit :=
  if negb (m_in_guild m) then ret tt
  else if m_author_bot m then ret tt
  else if negb (startsWith (m_content m) command_prefix) then ret tt
  else
    let '(cmd, args) := parse_command (m_content m) in
    allow <- message_allow m ;;
    (if String.eqb cmd "clear" && allow then
       let amt := clear_amount args in
       await (catch_noop
                (simple_call (bulkDelete (m_channel m) (number_min amt (Fin 100))))) ;;
       await (channel_send (m_channel m) (Cleared amt)) ;;
       setTimeout 3000 (DeleteSent (m_channel m) (Cleared amt))
     else ret tt) ;;
    returned <-
      (if String.eqb cmd "ban" && allow then
         moderation_block m
           (fun t => member_ban t (tag (m_author m))) BanFailed BanDone
       else ret false) ;;
    if returned then ret tt
    else if String.eqb cmd "kick" && allow then
      moderation_block m member_kick KickFailed KickDone ;; ret tt
    else ret tt.

(* =================================================================== *)
(** ** Delivery of an event *)
(* =================================================================== *)

(** The emitter calls the handler and drops its promise; the timers the
    handler set expire afterwards. *)
Definition dispatch (i : Interaction) : M unit :=
  async (onInteraction i) ;; fire_timers.

Definition dispatch_message (m : Message) : M unit :=
  async (onMessage m) ;; fire_timers.

End Bot.

(* ===================================================================== *)
(** ** Vocabulary of the statements *)
(* ===================================================================== *)

Definition is_create (e : Event) : bool :=
  match e with Called (channels_create _) _ => true | _ => false end.

Definition is_delete (e : Event) : bool :=
  match e with Called (channel_delete _) _ => true | _ => false end.

Definition is_accepted_reply (e : Event) : bool :=
  match e with Called (reply _ _) true => true | _ => false end.

Definition count (p : Event -> bool) (tr : list Event) : nat :=
  List.length (filter p tr).

(** The state a run ends in. *)
Definition final {A} (m : M A) (st : St) : St := snd (m st).

(** The open-ticket operation: the menu or the button. *)
Definition opens_ticket (k : Kind) : Prop :=
  (exists v, k = TicketMenu v) \/ k = TicketButton.

(** The channels of a guild that count as the ticket of [u]. *)
Definition tickets_of (u : User) (chs : list Channel) : list Channel :=
  filter (is_ticket_of u) chs.

(** An environment in which every call succeeds. *)
Definition all_ok : Env :=
  {| accepts := fun _ _ => true;
     new_id := fun n => "900" ++ String (ascii_of_nat (48 + n)) "";
     recent := fun _ => [];
     toISOString := fun _ => "1970-01-01T00:00:00.000Z";
     color_ok := fun v =>
       match v with
       | JStr c => String.eqb c "#2b2d31"
       | _ => false
       end |}.

Definition no_config : Config :=
  {| admins := None; handlersRole := None; rolesToMention := None;
     ticketCategory := None; logChannel := None; prefix := None;
     footerText := None; embedColor := None; ticketTitle := None;
     ticketMessage := None |}.

(** A configuration with a footer text and nothing else. *)
Definition with_footer : Config :=
  {| admins := None; handlersRole := None; rolesToMention := None;
     ticketCategory := None; logChannel := None; prefix := None;
     footerText := Some (JStr "Support"); embedColor := None;
     ticketTitle := None; ticketMessage := None |}.

Definition bob : User :=
  {| user_id := "42"; username := "Bob"; tag := "Bob#0001" |}.

Definition lobby : Channel :=
  {| ch_id := "1"; ch_name := "general"; ch_sendable := true |}.

Definition bobs_ticket : Channel :=
  {| ch_id := "7"; ch_name := "ticket-bob"; ch_sendable := true |}.

Definition press (u : User) (ch : Channel) (k : Kind) : Interaction :=
  {| i_user := u; i_guild_id := "100"; i_channel := ch;
     memberPermissions := Some false; i_kind := k |}.

(** The caller id is present in the configured admin list. *)
Definition in_admin_list (cfg : Config) (id : string) : Prop :=
  exists l, admins cfg = Some (JArr l) /\ In (JStr id) l.

Definition admins_42 : Config :=
  {| admins := Some (JArr [JStr "42"]); handlersRole := None;
     rolesToMention := None; ticketCategory := None; logChannel := None;
     prefix := None;
     footerText := Some (JStr "Support"); embedColor := None;
     ticketTitle := None; ticketMessage := None |}.




Definition msg_old : Msg :=
  {| createdTimestamp := 1000; author_tag := "Bob#0001"; content := "hello" |}.
Definition msg_mid : Msg :=
  {| createdTimestamp := 2000; author_tag := "Ann#0002"; content := "" |}.
Definition msg_new : Msg :=
  {| createdTimestamp := 3000; author_tag := "Bob#0001"; content := "bye" |}.

Definition deny_view (id : Json) : Overwrite :=
  {| ow_id := id; ow_allow := []; ow_deny := [ViewChannel] |}.

Definition staffed : Config :=
  {| admins := Some (JArr [JStr "42"]);
     handlersRole := Some (JArr [JStr "501"; JStr "502"]);
     rolesToMention := None;
     ticketCategory := Some "300";
     logChannel := Some "1";
     prefix := None;
     footerText := Some (JStr "Support"); embedColor := None;
     ticketTitle := None; ticketMessage := None |}.


(** The reason shown in the ticket: the selected menu value, or the
    literal [general] for the button (lines 190-191 and 213). *)
Definition ticket_reason (k : Kind) : string :=
  match k with
  | TicketMenu v => v
  | _ => "general"
  end.



(** The call of the [catch] block: a first reply when the interaction was
    never acknowledged, an edit otherwise (lines 320-324). *)
Definition failure_call (st : St) : Call :=
  if negb (replied st) && negb (deferred st)
  then reply CreateError true
  else editReply CreateError true.

Definition carries_create_error (e : Event) : bool :=
  match e with
  | Called (reply CreateError _) _ => true
  | Called (editReply CreateError _) _ => true
  | _ => false
  end.

(** An environment that rejects what is sent to the log channel and
    accepts the rest. *)
Definition log_rejects : Env :=
  {| accepts := fun _ c =>
       match c with
       | send _ (LogNewTicket _ _) => false
       | _ => true
       end;
     new_id := new_id all_ok;
     recent := recent all_ok;
     toISOString := toISOString all_ok;
     color_ok := color_ok all_ok |}.

(** An environment that rejects the creation of channels. *)
Definition create_rejects : Env :=
  {| accepts := fun _ c =>
       match c with
       | channels_create _ => false
       | _ => true
       end;
     new_id := new_id all_ok;
     recent := recent all_ok;
     toISOString := toISOString all_ok;
     color_ok := color_ok all_ok |}.

(** An environment that rejects the introductory message. *)
Definition intro_rejects : Env :=
  {| accepts := fun _ c =>
       match c with
       | send _ (TicketIntro _ _ _) => false
       | _ => true
       end;
     new_id := new_id all_ok;
     recent := recent all_ok;
     toISOString := toISOString all_ok;
     color_ok := color_ok all_ok |}.

(** A deferred interaction in a guild with the given channels. *)
Definition acknowledged (chs : list Channel) : St :=
  {| channels := chs; replied := false; deferred := true;
     clock := 1%nat; trace := []; timers := [] |}.

Definition bobs_new_ticket : Channel :=
  {| ch_id := "9001"; ch_name := "ticket-bob"; ch_sendable := true |}.

(** Two calls of [safeReply] in a row on one interaction. *)
Definition safeReply_twice (env : Env) (t1 : Text) (e1 : bool) (t2 : Text)
    (e2 : bool) : M unit :=
  safeReply env t1 e1 ;; safeReply env t2 e2.

(** An environment that rejects every first reply. *)
Definition reply_rejects : Env :=
  {| accepts := fun _ c =>
       match c with
       | reply _ _ => false
       | _ => true
       end;
     new_id := new_id all_ok;
     recent := recent all_ok;
     toISOString := toISOString all_ok;
     color_ok := color_ok all_ok |}.

(** An environment in which removing the transient file throws; the
    channel is gone after its first deletion, so a second one is
    rejected. *)
Definition unlink_throws : Env :=
  {| accepts := fun n c =>
       match c with
       | unlinkSync _ => false
       | channel_delete _ => Nat.leb n 4
       | _ => true
       end;
     new_id := new_id all_ok;
     recent := fun _ => [msg_new; msg_mid; msg_old];
     toISOString := toISOString all_ok;
     color_ok := color_ok all_ok |}.

(** The denial text of a panel command. *)
Definition denial_of (k : Kind) : Text :=
  match k with
  | SetupTicket => DenySetupTicket
  | _ => DenyVerifySetup
  end.

Definition sets_up_panel (k : Kind) : Prop := k = SetupTicket \/ k = VerifySetup.

Definition says (content : string) : Message :=
  {| m_in_guild := true; m_author := bob; m_author_bot := false;
     m_content := content; m_member_manage := Some false;
     m_channel := lobby; m_mention := Some "77" |}.

Definition is_bulk_delete (e : Event) : bool :=
  match e with Called (bulkDelete _ _) _ => true | _ => false end.

Definition admin_says (content : string) : Message :=
  {| m_in_guild := true; m_author := bob; m_author_bot := false;
     m_content := content; m_member_manage := Some false;
     m_channel := lobby; m_mention := None |}.

(* ===================================================================== *)
(** ** Further vocabulary *)
(* ===================================================================== *)

(** [s] holds a space. *)
Fixpoint has_space (s : string) : bool :=
  match s with
  | EmptyString => false
  | String c s' => is_space c || has_space s'
  end.

(** The confirmation and the panel of a panel command (lines 168-169 and
    181-182). *)
Definition confirmation_of (k : Kind) : Text :=
  match k with
  | SetupTicket => PanelCreated
  | _ => VerifyPanelCreated
  end.

Definition panel_of (k : Kind) : Text :=
  match k with
  | SetupTicket => TicketPanel
  | _ => VerifyPanel
  end.

(** The embed a panel command builds before it confirms (lines 148-152
    and 177). *)
Definition embed_of (cfg : Config) (k : Kind) : Embed :=
  match k with
  | SetupTicket => panel_embed cfg
  | _ => verify_embed cfg
  end.

(** A press that the handler defers first (lines 189, 212, 218). *)
Definition deferred_first (k : Kind) : Prop :=
  opens_ticket k \/ k = CloseTicket.

(** The caller passes the gate of line 338. *)
Definition authorized (cfg : Config) (m : Message) : Prop :=
  isAdmin cfg (user_id (m_author m)) = true \/ m_member_manage m = Some true.

(** The message gets past the three guards of lines 330-332. *)
Definition is_command (cfg : Config) (m : Message) : Prop :=
  m_in_guild m = true /\ m_author_bot m = false
  /\ startsWith (m_content m) (command_prefix cfg) = true.

(** Any number of calls of [safeReply] in a row on one interaction. *)
Fixpoint safeReply_all (env : Env) (l : list (Text * bool)) : M unit :=
  match l with
  | [] => ret tt
  | (t, e) :: rest => safeReply env t e ;; safeReply_all env rest
  end.

(** The test of [ch.delete()] on the cache: what stays. *)
Definition other_than (c : Channel) (x : Channel) : bool :=
  negb (String.eqb (ch_id x) (ch_id c)).

(* ===================================================================== *)
(** ** Welcome and logs (lines 89-122) *)
(* ===================================================================== *)

(** These handlers are not [async]: they only look channels up in the
    cache and call [send], whose promise they drop (with or without a
    [catch]).  What the platform answers cannot change what they do, so a
    run is the list of the sends in order; what can stop a run is a
    channel object without [send] or an embed that a builder refuses,
    errors that the enclosing [try] swallows. *)

(** The texts, with the interpolated values. *)
Inductive Notice : Type :=
| WelcomeEmbed (member : User)            (* 94-99 *)
| JoinedLine (who : string)               (* 103 *)
| LeftLine (who : string)                 (* 110 *)
| DeletedLine (author shown : string).    (* 120 *)

(** State and exception monad over any state, for the handlers that have
    events of their own. *)
Definition GM (S A : Type) : Type := S -> Res A * S.

Definition g_ret {S A} (a : A) : GM S A := fun s => (Ok a, s).

Definition g_throw {S A} (e : Err) : GM S A := fun s => (Throw e, s).

Definition g_bind {S A B} (m : GM S A) (k : A -> GM S B) : GM S B :=
  fun s =>
    match m s with
    | (Ok a, s') => k a s'
    | (Throw e, s') => (Throw e, s')
    end.

Definition g_try {S A} (body : GM S A) (handler : Err -> GM S A) : GM S A :=
  fun s =>
    match body s with
    | (Ok a, s') => (Ok a, s')
    | (Throw e, s') => handler e s'
    end.

Definition g_get {S} : GM S S := fun s => (Ok s, s).

Definition g_modify {S} (f : S -> S) : GM S unit := fun s => (Ok tt, f s).

Definition g_await {S A} (p : GM S (Promise A)) : GM S A :=
  g_bind p (fun r =>
    match r with
    | Resolved a => g_ret a
    | Rejected e => g_throw e
    end).

Definition g_catch_noop {S A} (p : GM S (Promise A)) : GM S (Promise unit) :=
  g_bind p (fun _ => g_ret (Resolved tt)).

Declare Scope gm_scope.
Notation "x <- m ;; k" := (g_bind m (fun x => k))
  (at level 61, m at next level, right associativity) : gm_scope.
Notation "m ;; k" := (g_bind m (fun _ => k))
  (at level 61, right associativity) : gm_scope.
Open Scope gm_scope.

(** [cache.get(id)] on a list of channels. *)
Definition lookup (id : option string) (chs : list Channel) : option Channel :=
  match id with
  | Some k => List.find (fun c => String.eqb (ch_id c) k) chs
  | None => None
  end.

(** [ch.send(...)] with the promise dropped. *)
Definition post (c : Channel) (n : Notice) : GM (list (Channel * Notice)) unit :=
  if ch_sendable c then g_modify (fun l => (l ++ [(c, n)])%list)
  else g_throw TypeError.

(** Lines 90-105; [welcomeChannel] is [config.welcomeChannel].  The
    embed is built between the lookup and the first send. *)
Definition onGuildMemberAdd (env : Env) (welcomeChannel : option string)
    (cfg : Config) (chs : list Channel) (member : User)
  : GM (list (Channel * Notice)) unit :=
  g_try
    (match lookup welcomeChannel chs with
     | None => g_ret tt
     | Some ch =>
         (if embed_ok (color_ok env) (welcome_embed cfg member) then g_ret tt
          else g_throw ValidationError) ;;
         post ch (WelcomeEmbed member) ;;
         match lookup (logChannel cfg) chs with
         | Some log => post log (JoinedLine (tag member))
         | None => g_ret tt
         end
     end)
    (fun _ => g_ret tt).

(** Lines 107-112. *)
Definition onGuildMemberRemove (cfg : Config) (chs : list Channel)
    (member : User) : GM (list (Channel * Notice)) unit :=
  g_try
    (match lookup (logChannel cfg) chs with
     | Some log => post log (LeftLine (tag member))
     | None => g_ret tt
     end)
    (fun _ => g_ret tt).

(** A deleted message as the event carries it: the author and the content
    are missing when the message was not cached. *)
Record Deleted : Type := {
  d_in_guild : bool;
  d_author_tag : option string;
  d_content : option string
}.

(** Lines 114-122. *)
Definition onMessageDelete (cfg : Config) (chs : list Channel) (m : Deleted)
  : GM (list (Channel * Notice)) unit :=
  g_try
    (if negb (d_in_guild m) then g_ret tt
     else
       match lookup (logChannel cfg) chs with
       | None => g_ret tt
       | Some log =>
           let author :=
             match d_author_tag m with Some t => t | None => "Unknown" end in
           let shown :=
             if truthy_str (d_content m)
             then match d_content m with Some c => c | None => "" end
             else "[embed/attachment]" in
           post log (DeletedLine author shown)
       end)
    (fun _ => g_ret tt).

(** The sends of a run that starts with none. *)
Definition sends (h : GM (list (Channel * Notice)) unit) : list (Channel * Notice) :=
  snd (h []).

(* ===================================================================== *)
(** ** The verify button (lines 197-208) *)
(* ===================================================================== *)

Inductive VText : Type :=
| VerifyNotConfigured     (* 201 *)
| AlreadyVerified         (* 204 *)
| VerifyGranted           (* 207 *)
| VHandlerError.          (* 251 *)

Inductive VCall : Type :=
| v_deferReply (ephemeral : bool)
| v_reply (t : VText) (ephemeral : bool)
| v_editReply (t : VText)
| v_roles_add (role : string).

(** The flags of the interaction, a step counter and the calls so far
    with their outcome. *)
Record VSt : Type := {
  v_replied : bool;
  v_deferred : bool;
  v_clock : nat;
  v_trace : list (VCall * bool)
}.

Definition v_initial : VSt :=
  {| v_replied := false; v_deferred := false; v_clock := O; v_trace := [] |}.

Section Verify.

(** Which call the platform accepts at which step. *)
Variable v_accepts : nat -> VCall -> bool.

Definition v_perform (guard : bool) (c : VCall) : GM VSt bool :=
  fun s =>
    let ok := guard && v_accepts (v_clock s) c in
    (Ok ok,
     {| v_replied := v_replied s; v_deferred := v_deferred s;
        v_clock := S (v_clock s); v_trace := (v_trace s ++ [(c, ok)])%list |}).

(** The promise of a call; the source never looks at the error that a
    rejection carries. *)
Definition v_settle (ok : bool) : Promise unit :=
  if ok then Resolved tt else Rejected TypeError.

Definition v_set_replied : GM VSt unit :=
  g_modify (fun s =>
    {| v_replied := true; v_deferred := v_deferred s;
       v_clock := v_clock s; v_trace := v_trace s |}).

Definition v_set_deferred : GM VSt unit :=
  g_modify (fun s =>
    {| v_replied := v_replied s; v_deferred := true;
       v_clock := v_clock s; v_trace := v_trace s |}).

(** The three methods of the interaction, with the guards and the flags
    of the SDK as in [interaction_reply], [interaction_deferReply] and
    [interaction_editReply]. *)
Definition verify_reply (t : VText) (eph : bool) : GM VSt (Promise unit) :=
  s <- g_get ;;
  ok <- v_perform (negb (v_replied s || v_deferred s)) (v_reply t eph) ;;
  (if ok then v_set_replied else g_ret tt) ;;
  g_ret (v_settle ok).

Definition verify_deferReply (eph : bool) : GM VSt (Promise unit) :=
  s <- g_get ;;
  ok <- v_perform (negb (v_replied s || v_deferred s)) (v_deferReply eph) ;;
  (if ok then v_set_deferred else g_ret tt) ;;
  g_ret (v_settle ok).

Definition verify_editReply (t : VText) : GM VSt (Promise unit) :=
  s <- g_get ;;
  ok <- v_perform (v_replied s || v_deferred s) (v_editReply t) ;;
  (if ok then v_set_replied else g_ret tt) ;;
  g_ret (v_settle ok).

(** [member.roles.add(roleId)]. *)
Definition member_roles_add (role : string) : GM VSt (Promise unit) :=
  ok <- v_perform true (v_roles_add role) ;; g_ret (v_settle ok).

(** Lines 198-208, inside the [try] of the interaction handler;
    [verifyRole] is [config.verifyRole] and [roles] the ids in
    [member.roles.cache]. *)
Definition verify_try (verifyRole : option string) (roles : list string)
  : GM VSt (Promise unit) :=
  g_await (verify_deferReply true) ;;
  match verifyRole with
  | Some roleId =>
      if truthy_str (Some roleId) then
        if existsb (String.eqb roleId) roles then verify_editReply AlreadyVerified
        else
          g_await (g_catch_noop (member_roles_add roleId)) ;;
          verify_editReply VerifyGranted
      else verify_editReply VerifyNotConfigured
  | None => verify_editReply VerifyNotConfigured
  end.

(** Lines 248-253. *)
Definition verify_catch (_ : Err) : GM VSt (Promise unit) :=
  s <- g_get ;;
  if negb (v_replied s) && negb (v_deferred s) then
    g_try (g_await (verify_reply VHandlerError true)) (fun _ => g_ret tt) ;;
    g_ret (Resolved tt)
  else g_ret (Resolved tt).

Definition onVerifyButton (verifyRole : option string) (roles : list string)
  : GM VSt unit :=
  g_await (g_try (verify_try verifyRole roles) verify_catch).

End Verify.

Close Scope gm_scope.

(** The calls of a press of the verify button on a fresh interaction. *)
Definition verify_calls (v_accepts : nat -> VCall -> bool)
    (verifyRole : option string) (roles : list string) : list (VCall * bool) :=
  v_trace (snd (onVerifyButton v_accepts verifyRole roles v_initial)).

Definition is_roles_add (e : VCall * bool) : bool :=
  match e with (v_roles_add _, _) => true | _ => false end.

(* ===================================================================== *)
(** ** Sample data of the further statements *)
(* ===================================================================== *)

Definition orders (content : string) (mention : option string) : Message :=
  {| m_in_guild := true; m_author := bob; m_author_bot := false;
     m_content := content; m_member_manage := Some true;
     m_channel := lobby; m_mention := mention |}.

Definition ban_rejects : Env :=
  {| accepts := fun _ c =>
       match c with
       | member_ban _ _ => false
       | member_kick _ => false
       | _ => true
       end;
     new_id := new_id all_ok;
     recent := recent all_ok;
     toISOString := toISOString all_ok;
     color_ok := color_ok all_ok |}.

Definition confirm_rejects : Env :=
  {| accepts := fun _ c =>
       match c with
       | send _ (Cleared _) => false
       | bulkDelete _ _ => false
       | _ => true
       end;
     new_id := new_id all_ok;
     recent := recent all_ok;
     toISOString := toISOString all_ok;
     color_ok := color_ok all_ok |}.

Definition admin_press (k : Kind) : Interaction :=
  {| i_user := bob; i_guild_id := "100"; i_channel := lobby;
     memberPermissions := Some false; i_kind := k |}.

(** A press by a caller who holds the manage permission. *)
Definition manager_press (k : Kind) : Interaction :=
  {| i_user := bob; i_guild_id := "100"; i_channel := lobby;
     memberPermissions := Some true; i_kind := k |}.

Definition defer_rejects : Env :=
  {| accepts := fun _ c =>
       match c with
       | deferReply _ => false
       | _ => true
       end;
     new_id := new_id all_ok;
     recent := recent all_ok;
     toISOString := toISOString all_ok;
     color_ok := color_ok all_ok |}.

Definition fetch_rejects : Env :=
  {| accepts := fun _ c =>
       match c with
       | messages_fetch _ _ => false
       | _ => true
       end;
     new_id := new_id all_ok;
     recent := recent all_ok;
     toISOString := toISOString all_ok;
     color_ok := color_ok all_ok |}.

Definition bob_upper : User :=
  {| user_id := "43"; username := "BOB"; tag := "BOB#0002" |}.

Definition is_edit_event (e : Event) : bool :=
  match e with Called (editReply _ _) _ => true | _ => false end.

Definition acked (st : St) : bool := replied st || deferred st.

Definition logs_to_lobby : Config :=
  {| admins := None; handlersRole := None; rolesToMention := None;
     ticketCategory := None; logChannel := Some "1"; prefix := None;
     footerText := Some (JStr "Support"); embedColor := None;
     ticketTitle := None; ticketMessage := None |}.

Definition welcome_hall : Channel :=
  {| ch_id := "55"; ch_name := "welcome"; ch_sendable := true |}.

Definition partial_deleted : Deleted :=
  {| d_in_guild := true; d_author_tag := None; d_content := None |}.

Definition add_rejected (n : nat) (c : VCall) : bool :=
  match c with
  | v_roles_add _ => false
  | _ => true
  end.

(* ===================================================================== *)
(** ** Facts on strings and names *)
(* ===================================================================== *)

Example toLowerCase_ex : toLowerCase "Ticket-BoB_9" = "ticket-bob_9".
Proof. reflexivity. Qed.

Example split_ex1 : split_spaces "clear  250 x" = ["clear"; "250"; "x"].
Proof. reflexivity. Qed.

Example split_ex2 : split_spaces "" = [""].
Proof. reflexivity. Qed.

Example trim_ex : trim "  ban   me  " = "ban   me".
Proof. reflexivity. Qed.

Example parseInt_ex1 : parseInt (Some "250abc") = Some (Fin 250).
Proof. reflexivity. Qed.

Example parseInt_ex2 : parseInt (Some "-0x1F") = Some (Fin (-31)).
Proof. reflexivity. Qed.

Example parseInt_ex3 : parseInt (Some "abc") = None /\ parseInt None = None.
Proof. split; reflexivity. Qed.

Example parseInt_ex4 :
  parseInt (Some "9007199254740993") = Some (Fin 9007199254740992)
  /\ parseInt (Some "9007199254740995") = Some (Fin 9007199254740996)
  /\ parseInt (Some "-36028797018963969") = Some (Fin (-36028797018963968)).
Proof. repeat split; vm_compute; reflexivity. Qed.

Example toLowerCase_latin1 :
  lower_char (ascii_of_nat 201) = ascii_of_nat 233
  /\ lower_char (ascii_of_nat 215) = ascii_of_nat 215
  /\ lower_char (ascii_of_nat 223) = ascii_of_nat 223
  /\ toLowerCase (String (ascii_of_nat 201) "COLE")
     = String (ascii_of_nat 233) "cole".
Proof. repeat split; reflexivity. Qed.

(** A ticket channel is recognised through capitals outside [A]..[Z]
    too. *)
Example ticket_name_latin1 :
  is_ticket_of
    {| user_id := "7"; username := String (ascii_of_nat 201) "cole";
       tag := "" |}
    {| ch_id := "8"; ch_name := "Ticket-" ++ String (ascii_of_nat 233) "COLE";
       ch_sendable := true |} = true.
Proof. vm_compute; reflexivity. Qed.

(** An integer below 2^53 in absolute value is its own double. *)
Lemma round_double_exact (z : Z) : Z.abs z < 2 ^ 53 -> round_double z = Fin z.
Proof.
  intros H. unfold round_double.
  destruct (Z.ltb_spec (Z.abs z) (2 ^ 53)); [reflexivity | lia].
Qed.

(** A decimal numeral of 400 digits is beyond every double. *)
Example round_double_overflow :
  round_double (10 ^ 399) = Inf false /\ round_double (- 10 ^ 399) = Inf true
  /\ round_double (2 ^ 1024 - 2 ^ 970) = Inf false
  /\ round_double (2 ^ 1024 - 2 ^ 970 - 1) = Fin (2 ^ 1024 - 2 ^ 971).
Proof. repeat split; vm_compute; reflexivity. Qed.

Lemma lower_char_idem (c : ascii) : lower_char (lower_char c) = lower_char c.
Proof. destruct c as [[] [] [] [] [] [] [] []]; reflexivity. Qed.

Lemma toLowerCase_idem (s : string) : toLowerCase (toLowerCase s) = toLowerCase s.
Proof.
  induction s as [| c s IH]; simpl.
  - reflexivity.
  - rewrite lower_char_idem, IH. reflexivity.
Qed.

Lemma toLowerCase_app (a b : string) :
  toLowerCase (a ++ b) = toLowerCase a ++ toLowerCase b.
Proof.
  induction a as [| c a IH]; simpl.
  - reflexivity.
  - rewrite IH. reflexivity.
Qed.

(** The name compared at line 263 and the name created at line 271 are
    the same string. *)
Lemma created_name (cfg : Config) (gid : string) (u : User) :
  o_name (ticket_opts cfg gid u) = ticket_name u.
Proof.
  unfold ticket_opts, ticket_name; cbn [o_name].
  rewrite toLowerCase_app. reflexivity.
Qed.

Lemma ticket_name_lower (u : User) : toLowerCase (ticket_name u) = ticket_name u.
Proof.
  unfold ticket_name. rewrite toLowerCase_app, toLowerCase_idem. reflexivity.
Qed.

Lemma includes_In (l : list Json) (s : string) :
  includes l s = true <-> In (JStr s) l.
Proof.
  induction l as [| x l IH]; simpl.
  - split; [discriminate | tauto].
  - destruct x; rewrite ?Bool.orb_true_iff, IH;
      try (split; [intros H; right; exact H
                  | intros [H | H]; [discriminate H | exact H]]).
    rewrite String.eqb_eq. split.
    + intros [H | H]; [left; rewrite H; reflexivity | right; exact H].
    + intros [H | H]; [left; injection H; auto | right; exact H].
Qed.

Lemma isAdmin_spec (cfg : Config) (id : string) :
  isAdmin cfg id = true <-> in_admin_list cfg id.
Proof.
  unfold isAdmin, in_admin_list. split.
  - destruct (admins cfg) as [[| | | | l |] |]; try discriminate.
    intros H. exists l. split; [reflexivity | apply includes_In; exact H].
  - intros [l [E H]]. rewrite E. apply includes_In; exact H.
Qed.

(* ===================================================================== *)
(** ** The transcript *)
(* ===================================================================== *)




(* ===================================================================== *)
(** ** Running the handlers symbolically *)
(* ===================================================================== *)

Create HintDb bot.

#[local] Hint Unfold
  final dispatch dispatch_message onInteraction interaction_try
  interaction_catch createTicket createTicket_try createTicket_catch
  log_new_ticket safeReply close_task forward_transcript run_task
  fire_timers onMessage message_allow moderation_block
  interaction_reply interaction_deferReply interaction_editReply
  cache_find cache_get guild_channels_create channel_send
  channel_messages_fetch channel_del fs_writeFileSync fs_unlinkSync
  simple_call build perform settle setTimeout
  await catch_noop catch_with async try_catch bind ret throw get modify
  : bot.

#[local] Arguments firstn : simpl never.
#[local] Arguments filter : simpl never.
#[local] Arguments List.find : simpl never.
#[local] Arguments transcript : simpl never.
#[local] Arguments transcript_file : simpl never.
#[local] Arguments ticket_opts : simpl never.
#[local] Arguments ticket_name : simpl never.
#[local] Arguments is_ticket_of : simpl never.
#[local] Arguments denied : simpl never.
#[local] Arguments isAdmin : simpl never.
#[local] Arguments command_prefix : simpl never.
#[local] Arguments parse_command : simpl never.
#[local] Arguments clear_amount : simpl never.
#[local] Arguments startsWith : simpl never.
#[local] Arguments truthy_str : simpl never.
#[local] Arguments String.eqb : simpl never.
#[local] Arguments Z.min : simpl never.
#[local] Arguments number_min : simpl never.
#[local] Arguments embed_ok : simpl never.
#[local] Arguments Z.to_nat : simpl never.

(** Unfold the handlers, then split on every test whose outcome the
    environment, the configuration or the cache decides. *)
Ltac split_step :=
  match goal with
  | |- context [accepts ?e ?n ?c] => destruct (accepts e n c) eqn:?
  | |- context [embed_ok ?r ?e] => destruct (embed_ok r e) eqn:?
  | |- context [truthy_str ?x] => destruct (truthy_str x) eqn:?
  | |- context [List.find ?p ?l] => destruct (List.find p l) eqn:?
  | |- context [ch_sendable ?c] => destruct (ch_sendable c) eqn:?
  | |- context [logChannel ?c] => destruct (logChannel c) eqn:?
  | |- context [replied ?s] => destruct (replied s) eqn:?
  | |- context [deferred ?s] => destruct (deferred s) eqn:?
  end.

Ltac split_run :=
  repeat first
    [ progress cbn in * | progress autounfold with bot | split_step ].

Ltac run := autounfold with bot in *; split_run.

(** The same, rewriting with a known equation whenever it applies. *)
Ltac run_with H :=
  autounfold with bot;
  repeat first [ progress cbn | rewrite H | split_step ].

Ltac norm_trace := repeat rewrite <- app_assoc; cbn [app].




(* ===================================================================== *)
(** ** Ticket creation *)
(* ===================================================================== *)




(** The open-ticket operation issues one creation call when the lookup
    finds nothing and the deferral is accepted. *)
Lemma open_ticket_creates_once (env : Env) (cfg : Config) (chs : list Channel)
    (i : Interaction) :
  opens_ticket (i_kind i) ->
  List.find (is_ticket_of (i_user i)) chs = None ->
  accepts env 0 (deferReply true) = true ->
  filter is_create (trace (final (dispatch env cfg i) (initial chs))) =
    [Called (channels_create (ticket_opts cfg (i_guild_id i) (i_user i)))
            (accepts env 1 (channels_create
                              (ticket_opts cfg (i_guild_id i) (i_user i))))].
Proof.
  destruct i as [u g c mp k]; cbn [i_kind i_user i_guild_id].
  intros Hk Hnone Hd.
  destruct Hk as [[v ->] | ->];
    autounfold with bot; cbn; rewrite Hd; cbn; rewrite Hnone;
    split_run; reflexivity.
Qed.



Example empty_handler_array :
  handler_overwrites
    {| admins := None; handlersRole := Some (JArr []); rolesToMention := None;
       ticketCategory := None; logChannel := None; prefix := None;
     footerText := None; embedColor := None; ticketTitle := None;
     ticketMessage := None |}
  = [allow_view_send (JArr [])].
Proof. reflexivity. Qed.

(** *** The registry lookup *)

Lemma own_ticket_matches (u : User) (c : Channel) :
  ch_name c = ticket_name u -> is_ticket_of u c = true.
Proof.
  intros E. unfold is_ticket_of. rewrite E, ticket_name_lower.
  apply String.eqb_refl.
Qed.

Lemma find_none_filter {A} (p : A -> bool) (l : list A) :
  List.find p l = None -> filter p l = [].
Proof.
  induction l as [| x l IH]; [reflexivity |].
  change (List.find p (x :: l)) with (if p x then Some x else List.find p l).
  change (filter p (x :: l)) with (if p x then x :: filter p l else filter p l).
  destruct (p x); [discriminate | exact IH].
Qed.

Lemma filter_at_most_one {A} (p : A -> bool) (l : list A) (x y : A) :
  (List.length (filter p l) <= 1)%nat ->
  In x l -> p x = true -> In y l -> p y = true -> x = y.
Proof.
  intros Hlen Hx Px Hy Py.
  assert (Fx : In x (filter p l)) by (apply filter_In; auto).
  assert (Fy : In y (filter p l)) by (apply filter_In; auto).
  destruct (filter p l) as [| a [| b r]].
  - destruct Fx.
  - destruct Fx as [Ex | []]. destruct Fy as [Ey | []]. congruence.
  - simpl in Hlen. lia.
Qed.

Lemma same_name_same_tickets (u v : User) (chs : list Channel) :
  ticket_name u = ticket_name v -> tickets_of u chs = tickets_of v chs.
Proof.
  intros E. unfold tickets_of. apply filter_ext.
  intros c. unfold is_ticket_of. rewrite E. reflexivity.
Qed.

(** Adding the channel created for [v] when [v] had none keeps every user
    at one ticket channel at most. *)
Lemma single_ticket_after_create (u v : User) (chs : list Channel) (id : string) :
  List.find (is_ticket_of v) chs = None ->
  (List.length (tickets_of u chs) <= 1)%nat ->
  (List.length
     (tickets_of u
        (chs ++ [{| ch_id := id; ch_name := ticket_name v; ch_sendable := true |}]))
   <= 1)%nat.
Proof.
  intros Hnone Hlen. unfold tickets_of in *. rewrite filter_app, length_app.
  match goal with
  | |- context [filter ?p [?c]] =>
      change (filter p [c]) with (if p c then [c] else [])
  end.
  unfold is_ticket_of at 2. cbn [ch_name].
  rewrite ticket_name_lower.
  destruct (String.eqb_spec (ticket_name v) (ticket_name u)) as [E | NE].
  - change (filter (is_ticket_of u) chs) with (tickets_of u chs).
    rewrite (same_name_same_tickets u v chs (eq_sym E)).
    unfold tickets_of. rewrite (find_none_filter _ _ Hnone). simpl. lia.
  - simpl. lia.
Qed.

(** What the open-ticket operation does to the channel cache: nothing, or
    one channel with the ticket name of the user is added at the end, and
    then only when the lookup of line 263 found nothing. *)
Lemma open_ticket_channels (env : Env) (cfg : Config) (i : Interaction)
    (chs : list Channel) :
  opens_ticket (i_kind i) ->
  let st' := final (dispatch env cfg i) (initial chs) in
  channels st' = chs
  \/ (List.find (is_ticket_of (i_user i)) chs = None
      /\ exists id,
           channels st' =
             (chs ++ [{| ch_id := id; ch_name := ticket_name (i_user i);
                         ch_sendable := true |}])%list).
Proof.
  destruct i as [u g ch mp k]; cbn [i_kind i_user].
  intros [[v ->] | ->]; run;
    rewrite ?created_name;
    first [ left; reflexivity
          | right; split; [reflexivity | eexists; reflexivity] ].
Qed.

Lemma open_ticket_keeps_single (env : Env) (cfg : Config) (i : Interaction)
    (chs : list Channel) (u : User) :
  opens_ticket (i_kind i) ->
  (List.length (tickets_of u chs) <= 1)%nat ->
  (List.length
     (tickets_of u (channels (final (dispatch env cfg i) (initial chs)))) <= 1)%nat.
Proof.
  intros Hk Hlen.
  destruct (open_ticket_channels env cfg i chs Hk) as [-> | [Hnone [id ->]]].
  - exact Hlen.
  - apply single_ticket_after_create; assumption.
Qed.

Lemma find_exists {A} (p : A -> bool) (l : list A) (x : A) :
  In x l -> p x = true -> exists y, List.find p l = Some y.
Proof.
  intros Hin Hp. destruct (List.find p l) as [y |] eqn:E.
  - exists y; reflexivity.
  - rewrite (find_none p l E x Hin) in Hp. discriminate.
Qed.

(** C1. In a guild where the user already has a channel named [ticket-]
    followed by the lower-cased username, the open-ticket operation (menu
    or button) issues no creation call and leaves the channel cache as it
    was; once the deferral is accepted, its only other call edits the reply
    with the text that references the channel the lookup found.  That
    channel carries the ticket name up to case, and is the user's channel
    itself when the guild holds at most one such channel.  In general the
    operation keeps every user at one ticket channel at most. *)
Theorem C1_existing_ticket_not_duplicated (env : Env) (cfg : Config)
    (chs : list Channel) (i : Interaction) (c : Channel) :
  opens_ticket (i_kind i) ->
  In c chs ->
  ch_name c = ticket_name (i_user i) ->
  exists existing,
    List.find (is_ticket_of (i_user i)) chs = Some existing
    /\ In existing chs
    /\ toLowerCase (ch_name existing) = ticket_name (i_user i)
    /\ ((List.length (tickets_of (i_user i) chs) <= 1)%nat -> existing = c)
    /\ count is_create (trace (final (dispatch env cfg i) (initial chs))) = O
    /\ channels (final (dispatch env cfg i) (initial chs)) = chs
    /\ (accepts env 0 (deferReply true) = true ->
        trace (final (dispatch env cfg i) (initial chs)) =
          [Called (deferReply true) true;
           Called (editReply (HasOpenTicket existing) true)
                  (accepts env 1 (editReply (HasOpenTicket existing) true))])
    /\ (forall u,
          (List.length (tickets_of u chs) <= 1)%nat ->
          (List.length
             (tickets_of u (channels (final (dispatch env cfg i) (initial chs))))
           <= 1)%nat).
Proof.
  intros Hk Hin Hname.
  pose proof (own_ticket_matches _ _ Hname) as Hc.
  destruct (find_exists _ _ _ Hin Hc) as [existing Hfind].
  destruct (find_some _ _ Hfind) as [Hex Hp].
  exists existing. repeat split; try assumption.
  - unfold is_ticket_of in Hp. apply String.eqb_eq. exact Hp.
  - intros Hlen. unfold tickets_of in Hlen.
    exact (filter_at_most_one _ _ _ _ Hlen Hex Hp Hin Hc).
  - destruct i as [u g ch mp k]; cbn [i_kind i_user] in *.
    destruct Hk as [[v ->] | ->]; run_with Hfind; reflexivity.
  - destruct i as [u g ch mp k]; cbn [i_kind i_user] in *.
    destruct Hk as [[v ->] | ->]; run_with Hfind; reflexivity.
  - intros Hd. destruct i as [u g ch mp k]; cbn [i_kind i_user] in *.
    destruct Hk as [[v ->] | ->];
      autounfold with bot; cbn; rewrite Hd; cbn; rewrite Hfind; cbn;
      destruct (accepts env 1 _); reflexivity.
  - intros u. apply open_ticket_keeps_single. exact Hk.
Qed.

Lemma C1_existing_ticket_not_duplicated_witness :
  trace (final (dispatch all_ok no_config (press bob lobby TicketButton))
               (initial [lobby; bobs_ticket])) =
    [Called (deferReply true) true;
     Called (editReply (HasOpenTicket bobs_ticket) true) true]
  /\ channels (final (dispatch all_ok no_config (press bob lobby TicketButton))
                     (initial [lobby; bobs_ticket])) = [lobby; bobs_ticket].
Proof.
  destruct (C1_existing_ticket_not_duplicated all_ok no_config
              [lobby; bobs_ticket] (press bob lobby TicketButton) bobs_ticket)
    as (existing & Hfind & _ & _ & _ & _ & Hch & Htr & _).
  - right; reflexivity.
  - right; left; reflexivity.
  - reflexivity.
  - injection Hfind as <-. split.
    + apply Htr. reflexivity.
    + exact Hch.
Defined.


Lemma length_append (a b : string) :
  String.length (a ++ b) = (String.length a + String.length b)%nat.
Proof. induction a as [| c a IH]; cbn; [| rewrite IH]; reflexivity. Qed.

Lemma length_mention (id : string) :
  String.length (mention id) = (String.length id + 3)%nat.
Proof. unfold mention. rewrite !length_append. cbn. lia. Qed.

(** The embed of a ticket is built when the configured footer text is a
    string of 1 to 2048 code units, the SDK resolves the colour, and the
    description fits in 4096 code units; it is never built when the footer
    text is missing or falsy, for [setFooter] refuses the empty text. *)
Lemma ticket_embed_ok (env : Env) (cfg : Config) (u : User) (type t : string) :
  footerText cfg = Some (JStr t) ->
  (1 <= String.length t <= 2048)%nat ->
  color_ok env (or_string (embedColor cfg) "#2b2d31") = true ->
  (String.length (user_id u) + String.length type <= 4068)%nat ->
  embed_ok (color_ok env) (ticket_embed cfg u type) = true.
Proof.
  intros Hf [Hlo Hhi] Hc Hlen.
  unfold embed_ok, ticket_embed; cbn [e_title e_description e_color e_footer].
  rewrite Hc. unfold or_string. rewrite Hf. unfold truthy.
  destruct (String.eqb_spec t "") as [-> | _]; [cbn in Hlo; lia |].
  cbn [negb text_ok andb].
  cbn [map list_sum]. rewrite length_mention.
  repeat (apply andb_true_intro; split); try reflexivity;
    apply Nat.leb_le; unfold list_sum; cbn [fold_right]; lia.
Qed.

Lemma text_ok_empty (max : nat) : text_ok max (Configured (JStr "")) = false.
Proof. reflexivity. Qed.

Lemma no_footer_no_embed (r : Json -> bool) (cfg : Config) (e : Embed) :
  truthy (footerText cfg) = false ->
  e_footer e = Some (or_string (footerText cfg) "") ->
  embed_ok r e = false.
Proof.
  intros Hf He. unfold embed_ok. rewrite He. unfold or_string.
  destruct (footerText cfg) as [j |]; [rewrite Hf |];
    rewrite text_ok_empty; apply Bool.andb_false_r.
Qed.



(** *** Failures after the duplicate check *)

(** C8, as the code has it.  After the duplicate check found nothing:
    when the creation is rejected, or when it is accepted and the embed
    of the ticket is refused by the builder (as it always is when the
    configuration has no footer text), or when the embed is built and the
    introductory message is rejected, or when the configured log channel
    found in the cache has no [send] method, [createTicket] catches the
    error and its last call carries the generic failure text, as a first
    reply when the interaction was never acknowledged and as an edit
    otherwise; a channel that was created stays in the cache and no
    deletion is called.  A rejected send to the log channel is not
    awaited: it is not caught, and the reply is edited with the success
    text. *)
Theorem C8_creation_failure_reported (env : Env) (cfg : Config)
    (i : Interaction) (type : string) (st : St) :
  List.find (is_ticket_of (i_user i)) (channels st) = None ->
  let u := i_user i in
  let o := ticket_opts cfg (i_guild_id i) u in
  let ch := {| ch_id := new_id env (clock st); ch_name := ticket_name u;
               ch_sendable := true |} in
  let built := embed_ok (color_ok env) (ticket_embed cfg u type) in
  let intro := send ch (TicketIntro u type (rolesToMention cfg)) in
  let st' := final (createTicket env cfg i type) st in
  (accepts env (clock st) (channels_create o) = false ->
   exists ok,
     trace st' =
       (trace st ++ [Called (channels_create o) false;
                     Called (failure_call st) ok])%list
     /\ channels st' = channels st)
  /\ (truthy (footerText cfg) = false -> built = false)
  /\ (accepts env (clock st) (channels_create o) = true ->
      built = false ->
      exists ok,
        trace st' =
          (trace st ++ [Called (channels_create o) true;
                        Called (failure_call st) ok])%list
        /\ channels st' = (channels st ++ [ch])%list)
  /\ (accepts env (clock st) (channels_create o) = true ->
      built = true ->
      accepts env (S (clock st)) intro = false ->
      exists ok,
        trace st' =
          (trace st ++ [Called (channels_create o) true;
                        Called intro false;
                        Called (failure_call st) ok])%list
        /\ channels st' = (channels st ++ [ch])%list)
  /\ (forall k l,
        accepts env (clock st) (channels_create o) = true ->
        built = true ->
        accepts env (S (clock st)) intro = true ->
        logChannel cfg = Some k -> k <> "" ->
        List.find (fun c => String.eqb (ch_id c) k) (channels st ++ [ch])
          = Some l ->
        (ch_sendable l = false ->
         exists ok,
           trace st' =
             (trace st ++ [Called (channels_create o) true;
                           Called intro true;
                           Called (failure_call st) ok])%list
           /\ channels st' = (channels st ++ [ch])%list)
        /\ (ch_sendable l = true ->
            accepts env (S (S (clock st))) (send l (LogNewTicket (tag u) ch))
              = false ->
            exists ok,
              trace st' =
                (trace st ++ [Called (channels_create o) true;
                              Called intro true;
                              Called (send l (LogNewTicket (tag u) ch)) false;
                              Called (editReply (TicketCreated ch) true) ok])%list)).
Proof.
  intros Hnone u o ch built intro st'. subst st' intro built ch o u.
  destruct i as [u g c mp k0]; cbn [i_kind i_user i_guild_id] in *.
  destruct st as [chs r d n tr tm]; cbn [channels clock trace] in *.
  unfold failure_call; cbn [replied deferred].
  split; [| split; [| split; [| split]]].
  - intros Hc. autounfold with bot; cbn. rewrite Hnone; cbn. rewrite Hc; cbn.
    destruct r, d; cbn; split_run;
      norm_trace; eexists; split; reflexivity.
  - intros Hf. apply (no_footer_no_embed _ cfg); [exact Hf | reflexivity].
  - rewrite <- (created_name cfg g u). intros Hc He.
    autounfold with bot; cbn. rewrite Hnone; cbn. rewrite Hc; cbn.
    rewrite He; cbn.
    destruct r, d; cbn; split_run;
      norm_trace; eexists; split; reflexivity.
  - rewrite <- (created_name cfg g u). intros Hc He Hi.
    autounfold with bot; cbn. rewrite Hnone; cbn. rewrite Hc; cbn.
    rewrite He; cbn. rewrite Hi; cbn.
    destruct r, d; cbn; split_run;
      norm_trace; eexists; split; reflexivity.
  - rewrite <- (created_name cfg g u). intros k l Hc He Hi Hk Hne Hf.
    assert (Ht : truthy_str (Some k) = true).
    { unfold truthy_str. destruct (String.eqb_spec k ""); [contradiction | reflexivity]. }
    split.
    + intros Hs.
      autounfold with bot; cbn. rewrite Hnone; cbn. rewrite Hc; cbn.
      rewrite He; cbn.
      rewrite Hi; cbn. rewrite Hk, Ht; cbn. rewrite Hf; cbn. rewrite Hs; cbn.
      destruct r, d; cbn; split_run;
        norm_trace; eexists; split; reflexivity.
    + intros Hs Hl.
      autounfold with bot; cbn. rewrite Hnone; cbn. rewrite Hc; cbn.
      rewrite He; cbn.
      rewrite Hi; cbn. rewrite Hk, Ht; cbn. rewrite Hf; cbn. rewrite Hs; cbn.
      rewrite Hl; cbn.
      destruct r, d; cbn; split_run; norm_trace; eexists; reflexivity.
Qed.

(** With the log channel configured and its send rejected, nothing
    carries the failure text: the run ends with the success text. *)
Lemma C8_rejected_log_send_not_caught :
  trace (final (createTicket log_rejects staffed
                  (press bob lobby TicketButton) "general")
               (acknowledged [lobby])) =
    [Called (channels_create (ticket_opts staffed "100" bob)) true;
     Called (send bobs_new_ticket (TicketIntro bob "general" None)) true;
     Called (send lobby (LogNewTicket "Bob#0001" bobs_new_ticket)) false;
     Called (editReply (TicketCreated bobs_new_ticket) true) true]
  /\ count carries_create_error
       (trace (final (createTicket log_rejects staffed
                        (press bob lobby TicketButton) "general")
                     (acknowledged [lobby]))) = O.
Proof. split; vm_compute; reflexivity. Qed.

Lemma C8_creation_failure_reported_witness :
  (exists ok,
     trace (final (createTicket create_rejects with_footer
                     (press bob lobby TicketButton) "general")
                  (acknowledged [lobby])) =
       [Called (channels_create (ticket_opts with_footer "100" bob)) false;
        Called (editReply CreateError true) ok])
  /\ (exists ok,
        trace (final (createTicket all_ok no_config
                        (press bob lobby TicketButton) "general")
                     (acknowledged [lobby])) =
          [Called (channels_create (ticket_opts no_config "100" bob)) true;
           Called (editReply CreateError true) ok]
        /\ channels (final (createTicket all_ok no_config
                              (press bob lobby TicketButton) "general")
                           (acknowledged [lobby])) = [lobby; bobs_new_ticket])
  /\ (exists ok,
        trace (final (createTicket intro_rejects with_footer
                        (press bob lobby TicketButton) "general")
                     (acknowledged [lobby])) =
          [Called (channels_create (ticket_opts with_footer "100" bob)) true;
           Called (send bobs_new_ticket (TicketIntro bob "general" None)) false;
           Called (editReply CreateError true) ok]
        /\ channels (final (createTicket intro_rejects with_footer
                              (press bob lobby TicketButton) "general")
                           (acknowledged [lobby])) = [lobby; bobs_new_ticket])
  /\ (exists ok,
        trace (final (createTicket log_rejects staffed
                        (press bob lobby TicketButton) "general")
                     (acknowledged [lobby])) =
          [Called (channels_create (ticket_opts staffed "100" bob)) true;
           Called (send bobs_new_ticket (TicketIntro bob "general" None)) true;
           Called (send lobby (LogNewTicket "Bob#0001" bobs_new_ticket)) false;
           Called (editReply (TicketCreated bobs_new_ticket) true) ok]).
Proof.
  split; [| split; [| split]].
  - destruct (C8_creation_failure_reported create_rejects with_footer
                (press bob lobby TicketButton) "general" (acknowledged [lobby])
                eq_refl) as (Hcreate & _).
    destruct (Hcreate eq_refl) as (ok & Htr & _).
    exists ok. exact Htr.
  - destruct (C8_creation_failure_reported all_ok no_config
                (press bob lobby TicketButton) "general" (acknowledged [lobby])
                eq_refl) as (_ & Hfooter & Hembed & _).
    destruct (Hembed eq_refl (Hfooter eq_refl)) as (ok & Htr & Hch).
    exists ok. split; [exact Htr | exact Hch].
  - destruct (C8_creation_failure_reported intro_rejects with_footer
                (press bob lobby TicketButton) "general" (acknowledged [lobby])
                eq_refl) as (_ & _ & _ & Hintro & _).
    destruct (Hintro eq_refl eq_refl eq_refl) as (ok & Htr & Hch).
    exists ok. split; [exact Htr | exact Hch].
  - destruct (C8_creation_failure_reported log_rejects staffed
                (press bob lobby TicketButton) "general" (acknowledged [lobby])
                eq_refl) as (_ & _ & _ & _ & Hlog).
    destruct (Hlog "1" lobby eq_refl eq_refl eq_refl eq_refl) as [_ Hsend];
      [discriminate | reflexivity |].
    destruct (Hsend eq_refl eq_refl) as (ok & Htr).
    exists ok. exact Htr.
Defined.

(* ===================================================================== *)
(** ** The responder *)
(* ===================================================================== *)

(** On a deferred interaction the two calls are two edits and no first
    reply; on a fresh interaction whose first reply is rejected they are
    two first replies. *)
Lemma C5_two_calls_not_reply_then_edit :
  trace (final (safeReply_twice all_ok PanelCreated true TicketPanel true)
               (acknowledged [])) =
    [Called (editReply PanelCreated true) true;
     Called (editReply TicketPanel true) true]
  /\ trace (final (safeReply_twice reply_rejects PanelCreated true TicketPanel true)
                  (initial [])) =
       [Called (reply PanelCreated true) false;
        Called (reply TicketPanel true) false].
Proof. split; vm_compute; reflexivity. Qed.

(** C5, as the code has it.  Two calls of [safeReply] issue two calls and
    never throw.  On an interaction that is already replied or deferred
    both are edits.  On a fresh one the first is a first reply; the second
    is an edit when the first reply was accepted and another first reply
    when it was rejected.  In every case at most one first reply is
    accepted. *)
Theorem C5_safeReply_twice (env : Env) (t1 t2 : Text) (e1 e2 : bool) (st : St) :
  exists c1 ok1 c2 ok2,
    trace (final (safeReply_twice env t1 e1 t2 e2) st) =
      (trace st ++ [Called c1 ok1; Called c2 ok2])%list
    /\ fst (safeReply_twice env t1 e1 t2 e2 st) = Ok tt
    /\ (count is_accepted_reply [Called c1 ok1; Called c2 ok2] <= 1)%nat
    /\ (replied st || deferred st = true ->
        c1 = editReply t1 e1 /\ c2 = editReply t2 e2)
    /\ (replied st || deferred st = false ->
        c1 = reply t1 e1
        /\ ok1 = accepts env (clock st) (reply t1 e1)
        /\ (ok1 = true -> c2 = editReply t2 e2)
        /\ (ok1 = false -> c2 = reply t2 e2)).
Proof.
  destruct st as [chs r d n tr tm].
  unfold safeReply_twice.
  destruct r, d; autounfold with bot; cbn;
    repeat match goal with
      | |- context [accepts ?e ?k ?c] => destruct (accepts e k c) eqn:?; cbn
      end;
    norm_trace; do 4 eexists;
    (split; [reflexivity |]); (split; [reflexivity |]);
    (split; [unfold count, filter, is_accepted_reply; cbn; lia |]);
    split; intros H; try discriminate H; repeat split;
      try reflexivity; try (intros H'; discriminate H').
Qed.

Lemma C5_safeReply_twice_witness :
  exists ok2,
    trace (final (safeReply_twice all_ok PanelCreated true TicketPanel true)
                 (initial [])) =
      [Called (reply PanelCreated true) true;
       Called (editReply TicketPanel true) ok2].
Proof.
  destruct (C5_safeReply_twice all_ok PanelCreated TicketPanel true true
              (initial []))
    as (c1 & ok1 & c2 & ok2 & Htr & _ & _ & _ & Hfresh).
  destruct (Hfresh eq_refl) as (-> & -> & Hedit & _).
  rewrite (Hedit eq_refl) in Htr.
  exists ok2. exact Htr.
Defined.

(* ===================================================================== *)
(** ** Closing a ticket *)
(* ===================================================================== *)

Ltac count_now := unfold count, filter, is_delete; cbn.

Ltac in_cases H :=
  cbn in H;
  repeat (destruct H as [H | H]; [try discriminate H |]);
  try contradiction.

(** X10. What a press of the close button does once its deferral is accepted:
    the closing notice is edited in, a timer of 5000 ms is set, and when it
    fires the callback runs.  The callback deletes the pressed channel and
    nothing else, at least once whatever the fetch, the write and the
    forwarding do; it deletes a second time exactly when removing the
    transient file throws, because that removal sits inside the [try]
    after the first deletion. *)
Lemma close_ticket_run (env : Env) (cfg : Config) (chs : list Channel)
    (i : Interaction) :
  i_kind i = CloseTicket ->
  accepts env 0 (deferReply true) = true ->
  let task := CloseTask (i_channel i) (i_user i) in
  exists ok body,
    trace (final (dispatch env cfg i) (initial chs)) =
      ([Called (deferReply true) true;
        Called (editReply ClosingNotice false) ok;
        Scheduled 5000 task;
        Fired 5000 task] ++ body)%list
    /\ (forall e, In e body -> is_delete e = true ->
          exists b, e = Called (channel_delete (i_channel i)) b)
    /\ (1 <= count is_delete body <= 2)%nat
    /\ (count is_delete body = 2%nat <->
        In (Called (unlinkSync (transcript_file (i_channel i))) false) body).
Proof.
  destruct i as [u g ch mp k]; cbn [i_kind i_user i_channel].
  intros -> Hd; cbv zeta.
  autounfold with bot; cbn. rewrite Hd; cbn.
  split_run; eexists; eexists; (split; [reflexivity |]);
    (split; [intros e He Hdel; in_cases He; subst e;
             try discriminate Hdel; eexists; reflexivity |]);
    (split; [count_now; lia |]);
    (split; [count_now; intros H; try discriminate H;
             cbn; tauto
            | intros H; in_cases H; count_now; reflexivity ]).
Qed.

(** C3, at a press of the close button after which the fetch, the write
    and the first deletion succeed and the removal of the transient file
    throws: the notice comes first and the timer is of 5000 ms, but the
    deletion of the channel is called twice. *)
Theorem C3_delete_called_twice_when_unlink_throws :
  trace (final (dispatch unlink_throws no_config (press bob bobs_ticket CloseTicket))
               (initial [lobby; bobs_ticket])) =
    [Called (deferReply true) true;
     Called (editReply ClosingNotice false) true;
     Scheduled 5000 (CloseTask bobs_ticket bob);
     Fired 5000 (CloseTask bobs_ticket bob);
     Called (messages_fetch bobs_ticket 100) true;
     Called (writeFileSync "transcript-7.txt"
               (transcript (toISOString all_ok) [msg_new; msg_mid; msg_old])) true;
     Called (channel_delete bobs_ticket) true;
     Called (unlinkSync "transcript-7.txt") false;
     Called (channel_delete bobs_ticket) false]
  /\ count is_delete
       (trace (final (dispatch unlink_throws no_config
                        (press bob bobs_ticket CloseTicket))
                     (initial [lobby; bobs_ticket]))) = 2%nat.
Proof. split; vm_compute; reflexivity. Qed.

(* ===================================================================== *)
(** ** Privileged operations *)
(* ===================================================================== *)

(** An unprivileged [!clear 5] is ignored without a word. *)
Lemma C9_prefix_command_denied_silently :
  trace (final (dispatch_message all_ok no_config (says "!clear 5"))
               (initial [lobby])) = []
  /\ allow no_config (user_id bob) false = false.
Proof. split; vm_compute; reflexivity. Qed.

(** C9, as the code has it.  For a caller who is not in the admin list
    and does not hold the manage permission: a panel command
    ([setup_ticket], [verify_setup]) replies with its denial text and posts
    no panel (when that reply is rejected the handler tries its generic
    error reply and stops); a prefix message, whatever its command, calls
    nothing, sets no timer and sends no text. *)
Theorem C9_unprivileged_caller (env : Env) (cfg : Config) (chs : list Channel) :
  (forall i,
     sets_up_panel (i_kind i) ->
     isAdmin cfg (user_id (i_user i)) = false ->
     memberPermissions i <> Some true ->
     trace (final (dispatch env cfg i) (initial chs)) =
       Called (reply (denial_of (i_kind i)) true)
              (accepts env 0 (reply (denial_of (i_kind i)) true))
       :: (if accepts env 0 (reply (denial_of (i_kind i)) true) then []
           else [Called (reply HandlerError true)
                        (accepts env 1 (reply HandlerError true))]))
  /\ (forall m,
        isAdmin cfg (user_id (m_author m)) = false ->
        m_member_manage m <> Some true ->
        trace (final (dispatch_message env cfg m) (initial chs)) = []
        /\ timers (final (dispatch_message env cfg m) (initial chs)) = []).
Proof.
  split.
  - intros [u g ch mp k]; cbn [i_kind i_user memberPermissions].
    intros Hk Hadm Hmp.
    assert (Hden : denied cfg (user_id u) mp = true).
    { unfold denied. rewrite Hadm.
      destruct mp as [[] |]; [exfalso; apply Hmp; reflexivity | |]; reflexivity. }
    destruct Hk as [-> | ->]; autounfold with bot; cbn; rewrite Hden; cbn;
      destruct (accepts env 0 _); cbn; [reflexivity | | reflexivity |];
      destruct (accepts env 1 _); reflexivity.
  - intros [ig a bot txt mm ch mn]; cbn [m_author m_member_manage].
    intros Hadm Hmm.
    autounfold with bot; cbn.
    destruct ig; cbn; [| split; reflexivity].
    destruct bot; cbn; [split; reflexivity |].
    destruct (startsWith txt (command_prefix cfg)); cbn; [| split; reflexivity].
    destruct (parse_command cfg txt) as [cmd args]. rewrite Hadm.
    destruct mm as [[] |]; [exfalso; apply Hmm; reflexivity | |]; cbn.
    + rewrite !Bool.andb_false_r. cbn. split; reflexivity.
    + split; reflexivity.
Qed.

Lemma C9_unprivileged_caller_witness :
  trace (final (dispatch all_ok no_config (press bob lobby SetupTicket))
               (initial [lobby])) =
    [Called (reply DenySetupTicket true) true]
  /\ trace (final (dispatch_message all_ok no_config (says "!ban @x"))
                  (initial [lobby])) = [].
Proof.
  destruct (C9_unprivileged_caller all_ok no_config [lobby]) as [Hi Hm].
  split.
  - apply (Hi (press bob lobby SetupTicket)).
    + left; reflexivity.
    + reflexivity.
    + discriminate.
  - apply (Hm (says "!ban @x")).
    + reflexivity.
    + discriminate.
Defined.

(* ===================================================================== *)
(** ** The admin gate *)
(* ===================================================================== *)

(** For an authorized caller the gate of line 338 is [true] and reading
    it changes nothing. *)
Lemma message_allow_authorized (cfg : Config) (m : Message) (st : St) :
  authorized cfg m -> message_allow cfg m st = (Ok true, st).
Proof.
  unfold authorized, message_allow. intros [H | H].
  - rewrite H. reflexivity.
  - rewrite H. destruct (isAdmin cfg (user_id (m_author m))); reflexivity.
Qed.

(** What the handler does with a command of an authorized caller, with
    the guards and the gate resolved. *)
Lemma onMessage_command (env : Env) (cfg : Config) (m : Message) (st : St) :
  is_command cfg m -> authorized cfg m ->
  onMessage env cfg m st =
    (let '(cmd, args) := parse_command cfg (m_content m) in
     (if String.eqb cmd "clear" then
        let amt := clear_amount args in
        await (catch_noop (simple_call env
                 (bulkDelete (m_channel m) (number_min amt (Fin 100))))) ;;
        await (channel_send env (m_channel m) (Cleared amt)) ;;
        setTimeout 3000 (DeleteSent (m_channel m) (Cleared amt))
      else ret tt) ;;
     returned <-
       (if String.eqb cmd "ban" then
          moderation_block env m
            (fun t => member_ban t (tag (m_author m))) BanFailed BanDone
        else ret false) ;;
     if returned then ret tt
     else if String.eqb cmd "kick" then
       moderation_block env m member_kick KickFailed KickDone ;; ret tt
     else ret tt) st.
Proof.
  intros (Hg & Hb & Hp) Hauth.
  unfold onMessage. rewrite Hg, Hb, Hp. cbn [negb].
  destruct (parse_command cfg (m_content m)) as [cmd args].
  unfold bind at 1. rewrite (message_allow_authorized cfg m st Hauth).
  rewrite !Bool.andb_true_r. reflexivity.
Qed.

Lemma allow_spec (cfg : Config) (id : string) (manage : bool) :
  allow cfg id manage = true <-> in_admin_list cfg id \/ manage = true.
Proof. unfold allow. rewrite Bool.orb_true_iff, isAdmin_spec. tauto. Qed.

(** With the member at hand, line 338 yields [allow] and changes
    nothing. *)
Lemma message_allow_member (cfg : Config) (m : Message) (st : St)
    (manage : bool) :
  m_member_manage m = Some manage ->
  message_allow cfg m st = (Ok (allow cfg (user_id (m_author m)) manage), st).
Proof.
  intros H. unfold message_allow, allow. rewrite H.
  destruct (isAdmin cfg (user_id (m_author m))); reflexivity.
Qed.

(** A caller who does not pass the gate gets nothing done. *)
Lemma denied_message_silent (env : Env) (cfg : Config) (chs : list Channel)
    (m : Message) :
  isAdmin cfg (user_id (m_author m)) = false ->
  m_member_manage m = Some false ->
  trace (final (dispatch_message env cfg m) (initial chs)) = [].
Proof.
  destruct m as [ig a bot txt mm ch mn]; cbn [m_author m_member_manage].
  intros Hadm ->.
  autounfold with bot; cbn.
  destruct ig; cbn; [| reflexivity].
  destruct bot; cbn; [reflexivity |].
  destruct (startsWith txt (command_prefix cfg)); cbn; [| reflexivity].
  destruct (parse_command cfg txt) as [cmd args]. rewrite Hadm. cbn.
  rewrite !Bool.andb_false_r. reflexivity.
Qed.

(** A clear command of a caller who passes the gate starts with the bulk
    deletion. *)
Lemma allowed_clear_acts (env : Env) (cfg : Config) (chs : list Channel)
    (m : Message) :
  is_command cfg m -> authorized cfg m ->
  fst (parse_command cfg (m_content m)) = "clear" ->
  exists n ok rest,
    trace (final (dispatch_message env cfg m) (initial chs)) =
      Called (bulkDelete (m_channel m) n) ok :: rest.
Proof.
  intros Hc Ha Hcmd.
  unfold final, dispatch_message, async, bind at 1.
  rewrite (onMessage_command env cfg m (initial chs) Hc Ha).
  destruct (parse_command cfg (m_content m)) as [cmd args]; cbn [fst] in Hcmd.
  subst cmd.
  change (String.eqb "clear" "clear") with true.
  change (String.eqb "clear" "ban") with false.
  change (String.eqb "clear" "kick") with false.
  autounfold with bot; cbn; split_run; do 3 eexists; reflexivity.
Qed.

(** The guard of the panel commands lets through the callers the gate
    lets through. *)
Lemma denied_spec (cfg : Config) (id : string) (mp : option bool) :
  denied cfg id mp = false <-> in_admin_list cfg id \/ mp = Some true.
Proof.
  unfold denied. rewrite <- isAdmin_spec.
  destruct mp as [[] |], (isAdmin cfg id); cbn; split; intros H;
    try reflexivity; try discriminate H; auto;
    destruct H as [H | H]; discriminate H.
Qed.

(** C7. The gate of line 338, as the message handler evaluates it, reads
    the configuration, the author id and the author's manage permission
    and changes nothing; with the member at hand it yields [true] exactly
    when the id is in the configured admin list or the permission is
    held.  In particular the id 123 without the permission passes exactly
    when it is listed, and the id 999 with the permission always passes.
    A clear command does something exactly when its author passes.  When
    the member is missing, a listed author passes and for any other
    author reading the permission throws, out of the handler.  The guard
    of the panel commands (lines 143, 173) lets through the same callers:
    the handler opens with the denial exactly for the others. *)
Theorem C7_admin_gate (env : Env) (cfg : Config) (chs : list Channel)
    (m : Message) (i : Interaction) (st : St) :
  let id := user_id (m_author m) in
  let caller := user_id (i_user i) in
  let denial := reply (denial_of (i_kind i)) true in
  (forall manage, m_member_manage m = Some manage ->
     message_allow cfg m st = (Ok (allow cfg id manage), st)
     /\ (allow cfg id manage = true <-> in_admin_list cfg id \/ manage = true))
  /\ (id = "123" -> m_member_manage m = Some false ->
      (message_allow cfg m st = (Ok true, st) <-> in_admin_list cfg "123"))
  /\ (id = "999" -> m_member_manage m = Some true ->
      message_allow cfg m st = (Ok true, st))
  /\ (forall manage, is_command cfg m -> m_member_manage m = Some manage ->
        fst (parse_command cfg (m_content m)) = "clear" ->
        (trace (final (dispatch_message env cfg m) (initial chs)) <> []
         <-> in_admin_list cfg id \/ manage = true))
  /\ (m_member_manage m = None ->
      (in_admin_list cfg id -> message_allow cfg m st = (Ok true, st))
      /\ (~ in_admin_list cfg id ->
          message_allow cfg m st = (Throw TypeError, st)
          /\ (is_command cfg m ->
              onMessage env cfg m st = (Throw TypeError, st))))
  /\ (denied cfg caller (memberPermissions i) = false
      <-> in_admin_list cfg caller \/ memberPermissions i = Some true)
  /\ (sets_up_panel (i_kind i) ->
      (hd_error (trace (final (dispatch env cfg i) (initial chs)))
         = Some (Called denial (accepts env 0 denial))
       <-> ~ (in_admin_list cfg caller \/ memberPermissions i = Some true))).
Proof.
  cbv zeta.
  split; [| split; [| split; [| split; [| split; [| split]]]]].
  - intros manage Hm. split; [apply message_allow_member; exact Hm |].
    apply allow_spec.
  - intros Hid Hm. rewrite (message_allow_member cfg m st false Hm), Hid.
    rewrite <- isAdmin_spec. unfold allow. rewrite Bool.orb_false_r.
    split; [intros H; injection H; auto | intros ->; reflexivity].
  - intros Hid Hm. rewrite (message_allow_member cfg m st true Hm).
    unfold allow. rewrite Bool.orb_true_r. reflexivity.
  - intros manage Hc Hm Hcmd.
    rewrite <- allow_spec. unfold allow.
    destruct (isAdmin cfg (user_id (m_author m))) eqn:Hadm.
    + split; [reflexivity | intros _].
      destruct (allowed_clear_acts env cfg chs m Hc (or_introl Hadm) Hcmd)
        as (n & ok & rest & ->). discriminate.
    + destruct manage; cbn [orb].
      * split; [reflexivity | intros _].
        destruct (allowed_clear_acts env cfg chs m Hc (or_intror Hm) Hcmd)
          as (n & ok & rest & ->). discriminate.
      * rewrite (denied_message_silent env cfg chs m Hadm Hm).
        split; [intros H; exfalso; apply H; reflexivity | discriminate].
  - intros Hm. split.
    + intros Hin. apply isAdmin_spec in Hin.
      unfold message_allow. rewrite Hin. reflexivity.
    + intros Hout.
      assert (Hadm : isAdmin cfg (user_id (m_author m)) = false).
      { destruct (isAdmin cfg (user_id (m_author m))) eqn:E; [| reflexivity].
        exfalso. apply Hout, isAdmin_spec. exact E. }
      assert (Hgate : message_allow cfg m st = (Throw TypeError, st)).
      { unfold message_allow. rewrite Hadm, Hm. reflexivity. }
      split; [exact Hgate |].
      intros (Hg & Hb & Hp). unfold onMessage. rewrite Hg, Hb, Hp. cbn [negb].
      destruct (parse_command cfg (m_content m)) as [cmd args].
      unfold bind at 1. rewrite Hgate. reflexivity.
  - apply denied_spec.
  - destruct i as [u g ch mp k]; cbn [i_kind i_user i_channel memberPermissions].
    intros Hk. rewrite <- denied_spec.
    destruct (denied cfg (user_id u) mp) eqn:Hden.
    + split; [intros _ H; discriminate H | intros _].
      destruct Hk as [-> | ->]; autounfold with bot; cbn; rewrite Hden; cbn;
        destruct (accepts env 0 _); cbn; [reflexivity | | reflexivity |];
        destruct (accepts env 1 _); reflexivity.
    + split; [| intros H; exfalso; apply H; reflexivity].
      intros H; exfalso; revert H.
      destruct Hk as [-> | ->]; autounfold with bot; cbn; rewrite Hden; cbn;
        destruct (embed_ok (color_ok env) _); cbn;
        destruct (accepts env 0 _); cbn;
        try destruct (ch_sendable ch); cbn;
        try destruct (accepts env 1 _); cbn; discriminate.
Qed.

Lemma C7_admin_gate_witness :
  message_allow admins_42 (admin_says "!clear 250") (initial [lobby])
    = (Ok true, initial [lobby])
  /\ trace (final (dispatch_message all_ok admins_42 (admin_says "!clear 250"))
                  (initial [lobby])) <> []
  /\ ~ trace (final (dispatch_message all_ok no_config (says "!clear 250"))
                    (initial [lobby])) <> []
  /\ hd_error (trace (final (dispatch all_ok no_config
                               (press bob lobby SetupTicket))
                            (initial [lobby])))
     = Some (Called (reply DenySetupTicket true) true).
Proof.
  destruct (C7_admin_gate all_ok admins_42 [lobby] (admin_says "!clear 250")
              (press bob lobby SetupTicket) (initial [lobby]))
    as (Hgate & _ & _ & Hclear & _).
  destruct (C7_admin_gate all_ok no_config [lobby] (says "!clear 250")
              (press bob lobby SetupTicket) (initial [lobby]))
    as (_ & _ & _ & Hclear' & _ & _ & Hpanel).
  split; [| split; [| split]].
  - apply (Hgate false eq_refl).
  - apply (Hclear false); [repeat split | reflexivity | reflexivity |].
    left. exists [JStr "42"]. split; [reflexivity | left; reflexivity].
  - intros H.
    apply (Hclear' false) in H; [| repeat split | reflexivity | reflexivity].
    destruct H as [(l & Hl & _) | H]; discriminate.
  - apply (Hpanel (or_introl eq_refl)).
    intros [(l & Hl & _) | H]; discriminate.
Defined.

(* ===================================================================== *)
(** ** The clear command *)
(* ===================================================================== *)

Lemma clear_amount_default (args : list string) :
  parseInt (nth_error args 0) = None -> clear_amount args = Fin 5.
Proof. unfold clear_amount. intros ->. reflexivity. Qed.

Lemma parseInt_undefined : parseInt None = None.
Proof. reflexivity. Qed.

Lemma min_100_le (a : Number) : number_le (number_min a (Fin 100)) (Fin 100).
Proof.
  destruct a as [z | []]; unfold number_min, number_le;
    [apply Z.le_min_r | exact I | apply Z.le_refl].
Qed.

Lemma min_100_small (z : Z) : z <= 100 -> number_min (Fin z) (Fin 100) = Fin z.
Proof. intros H. unfold number_min. rewrite Z.min_l by exact H. reflexivity. Qed.

Lemma min_100_large (a : Number) :
  number_le (Fin 100) a -> number_min a (Fin 100) = Fin 100.
Proof.
  destruct a as [z | []]; unfold number_min, number_le; intros H;
    [rewrite Z.min_r by exact H | contradiction |]; reflexivity.
Qed.

(** C10. For a guild message of a non-bot author that starts with the
    prefix, whose command word is [clear], from a caller who is in the
    admin list or holds the manage permission: the handler calls the bulk
    deletion once, first, with the minimum of the amount and 100, which
    is at most 100 (it is 100 whenever the amount is 100 or more, plus
    infinity included); the amount is 5 when the argument is missing or
    [parseInt] yields no number, and the number [parseInt] yields, a
    double, when that is not zero; the message sent next reports the
    amount itself, not the minimum. *)
Theorem C10_clear_clamped (env : Env) (cfg : Config) (chs : list Channel)
    (m : Message) :
  m_in_guild m = true ->
  m_author_bot m = false ->
  startsWith (m_content m) (command_prefix cfg) = true ->
  fst (parse_command cfg (m_content m)) = "clear" ->
  isAdmin cfg (user_id (m_author m)) = true \/ m_member_manage m = Some true ->
  ch_sendable (m_channel m) = true ->
  let args := snd (parse_command cfg (m_content m)) in
  let amt := clear_amount args in
  number_le (number_min amt (Fin 100)) (Fin 100)
  /\ (number_le (Fin 100) amt -> number_min amt (Fin 100) = Fin 100)
  /\ (nth_error args 0 = None -> amt = Fin 5)
  /\ (parseInt (nth_error args 0) = None -> amt = Fin 5)
  /\ (forall v, parseInt (nth_error args 0) = Some v -> v <> Fin 0 -> amt = v)
  /\ exists ok1 ok2 rest,
       trace (final (dispatch_message env cfg m) (initial chs)) =
         Called (bulkDelete (m_channel m) (number_min amt (Fin 100))) ok1
         :: Called (send (m_channel m) (Cleared amt)) ok2
         :: rest
       /\ count is_bulk_delete rest = O.
Proof.
  destruct m as [ig a bot txt mm ch mn];
    cbn [m_in_guild m_author m_author_bot m_content m_member_manage m_channel].
  intros -> -> Hp Hcmd Hallow Hs. cbv zeta.
  split; [apply min_100_le |].
  split; [apply min_100_large |].
  split; [intros H; apply clear_amount_default; rewrite H; reflexivity |].
  split; [apply clear_amount_default |].
  split.
  { intros v Hv Hne. unfold clear_amount. rewrite Hv.
    destruct v as [z | sg]; [| reflexivity]. unfold number_truthy.
    destruct (Z.eqb_spec z 0); [subst z; contradiction | reflexivity]. }
  autounfold with bot; cbn. rewrite Hp; cbn.
  destruct (parse_command cfg txt) as [cmd args]; cbn [fst snd] in *.
  subst cmd.
  change (String.eqb "clear" "clear") with true.
  change (String.eqb "clear" "ban") with false.
  change (String.eqb "clear" "kick") with false.
  destruct Hallow as [Ha | Hm].
  - rewrite Ha; cbn. rewrite Hs; cbn.
    split_run; do 3 eexists; (split; [reflexivity |]);
      unfold count, filter, is_bulk_delete; reflexivity.
  - rewrite Hm; cbn.
    destruct (isAdmin cfg (user_id a)); cbn; rewrite Hs; cbn;
      split_run; do 3 eexists; (split; [reflexivity |]);
      unfold count, filter, is_bulk_delete; reflexivity.
Qed.

Lemma C10_clear_clamped_witness :
  exists ok1 ok2 rest,
    trace (final (dispatch_message all_ok admins_42 (admin_says "!clear 250"))
                 (initial [lobby])) =
      Called (bulkDelete lobby (Fin 100)) ok1
      :: Called (send lobby (Cleared (Fin 250))) ok2
      :: rest.
Proof.
  destruct (C10_clear_clamped all_ok admins_42 [lobby] (admin_says "!clear 250")
              eq_refl eq_refl eq_refl eq_refl (or_introl eq_refl) eq_refl)
    as (_ & _ & _ & _ & _ & ok1 & ok2 & rest & Htr & _).
  exists ok1, ok2, rest. exact Htr.
Defined.

Example clear_250 :
  trace (final (dispatch_message all_ok admins_42 (admin_says "!clear 250"))
               (initial [lobby])) =
    [Called (bulkDelete lobby (Fin 100)) true;
     Called (send lobby (Cleared (Fin 250))) true;
     Scheduled 3000 (DeleteSent lobby (Cleared (Fin 250)));
     Fired 3000 (DeleteSent lobby (Cleared (Fin 250)));
     Called (message_delete lobby (Cleared (Fin 250))) true].
Proof. vm_compute; reflexivity. Qed.

Example clear_amounts :
  clear_amount [] = Fin 5
  /\ clear_amount ["abc"] = Fin 5
  /\ clear_amount ["0"] = Fin 5
  /\ clear_amount ["-0"] = Fin 5
  /\ clear_amount ["12x"] = Fin 12
  /\ clear_amount ["-3"] = Fin (-3)
  /\ clear_amount ["0x10"] = Fin 16
  /\ clear_amount ["9007199254740993"] = Fin 9007199254740992
  /\ clear_amount ["9007199254740995"] = Fin 9007199254740996.
Proof. repeat split; vm_compute; reflexivity. Qed.

(** Beyond the range of the doubles the amount is infinite, the minimum
    with 100 is 100 for plus infinity and minus infinity for minus
    infinity. *)
Example clear_infinite :
  let nines := JsString.join "" (repeat "9999999999" 31) in
  clear_amount [nines] = Inf false
  /\ number_min (clear_amount [nines]) (Fin 100) = Fin 100
  /\ clear_amount [("-" ++ nines)%string] = Inf true
  /\ number_min (clear_amount [("-" ++ nines)%string]) (Fin 100) = Inf true.
Proof. repeat split; vm_compute; reflexivity. Qed.

(* ===================================================================== *)
(** ** The words of a prefix command *)
(* ===================================================================== *)

Lemma split_go_cons (s cur : string) (b : bool) :
  exists w ws, split_go s cur b = w :: ws.
Proof.
  revert cur b. induction s as [| c s IH]; intros cur b; simpl.
  - exists cur, []. reflexivity.
  - destruct (is_space c).
    + destruct b; [apply IH |]. eexists; eexists; reflexivity.
    + apply IH.
Qed.

Lemma has_space_snoc (s : string) (c : ascii) :
  has_space (s ++ String c "") = has_space s || is_space c.
Proof.
  induction s as [| a s IH]; simpl.
  - rewrite Bool.orb_false_r. reflexivity.
  - rewrite IH, Bool.orb_assoc. reflexivity.
Qed.

Lemma split_go_no_space (s cur : string) (b : bool) :
  has_space cur = false ->
  Forall (fun p => has_space p = false) (split_go s cur b).
Proof.
  revert cur b. induction s as [| c s IH]; intros cur b Hcur; simpl.
  - constructor; [exact Hcur | constructor].
  - destruct (is_space c) eqn:Hc.
    + destruct b; [apply IH; exact Hcur |].
      constructor; [exact Hcur | apply IH; reflexivity].
    + apply IH. rewrite has_space_snoc, Hcur, Hc. reflexivity.
Qed.

Lemma is_space_lower (c : ascii) : is_space (lower_char c) = is_space c.
Proof. destruct c as [[] [] [] [] [] [] [] []]; reflexivity. Qed.

Lemma has_space_lower (s : string) : has_space (toLowerCase s) = has_space s.
Proof.
  induction s as [| c s IH]; simpl; [reflexivity |].
  rewrite is_space_lower, IH. reflexivity.
Qed.

(** X1. Whatever the message, splitting what follows the prefix yields at
    least one word, so [args.shift()] is a string; the command word is
    that first word lower-cased, it is its own lower case, and neither it
    nor any argument holds a space. *)
Theorem parse_command_words (cfg : Config) (content : string) :
  exists w ws,
    split_spaces (trim (slice (String.length (command_prefix cfg)) content))
      = w :: ws
    /\ parse_command cfg content = (toLowerCase w, ws)
    /\ has_space (fst (parse_command cfg content)) = false
    /\ Forall (fun a => has_space a = false) (snd (parse_command cfg content))
    /\ toLowerCase (fst (parse_command cfg content))
         = fst (parse_command cfg content).
Proof.
  unfold parse_command, split_spaces.
  set (rest := trim (slice (String.length (command_prefix cfg)) content)).
  destruct (split_go_cons rest "" false) as (w & ws & E).
  pose proof (split_go_no_space rest "" false eq_refl) as Hall.
  rewrite E in Hall |- *. inversion Hall as [| x l Hw Hws]; subst.
  exists w, ws. cbn [hd tl fst snd].
  repeat split.
  - rewrite has_space_lower. exact Hw.
  - exact Hws.
  - apply toLowerCase_idem.
Qed.

(* ===================================================================== *)
(** ** The prefix commands, flow by flow *)
(* ===================================================================== *)

(** X2. A message outside a guild, from a bot, or that does not start
    with the prefix is dropped before the gate is even computed: the
    handler returns normally, calls nothing and sets no timer, whoever
    the author is. *)
Theorem onMessage_ignores (env : Env) (cfg : Config) (m : Message) (st : St) :
  m_in_guild m = false \/ m_author_bot m = true
  \/ startsWith (m_content m) (command_prefix cfg) = false ->
  onMessage env cfg m st = (Ok tt, st).
Proof.
  destruct m as [ig a bot txt mm ch mn]; cbn [m_in_guild m_author_bot m_content].
  unfold onMessage; cbn [m_in_guild m_author_bot m_content].
  intros [-> | [-> | H]]; cbn.
  - reflexivity.
  - destruct ig; reflexivity.
  - rewrite H. destruct ig, bot; reflexivity.
Qed.

Lemma onMessage_ignores_witness :
  onMessage all_ok admins_42 (admin_says "clear 5") (initial [lobby])
  = (Ok tt, initial [lobby]).
Proof.
  apply onMessage_ignores. right; right. reflexivity.
Defined.

(** X3. For an authorized caller, a command word other than [clear],
    [ban] and [kick] does nothing at all. *)
Theorem unknown_command_ignored (env : Env) (cfg : Config) (m : Message)
    (st : St) :
  is_command cfg m -> authorized cfg m ->
  fst (parse_command cfg (m_content m)) <> "clear" ->
  fst (parse_command cfg (m_content m)) <> "ban" ->
  fst (parse_command cfg (m_content m)) <> "kick" ->
  onMessage env cfg m st = (Ok tt, st).
Proof.
  intros Hc Ha H1 H2 H3. rewrite (onMessage_command env cfg m st Hc Ha).
  destruct (parse_command cfg (m_content m)) as [cmd args]; cbn [fst] in *.
  apply String.eqb_neq in H1, H2, H3. rewrite H1, H2, H3. reflexivity.
Qed.

Lemma unknown_command_ignored_witness :
  onMessage all_ok admins_42 (admin_says "!mute @x") (initial [lobby])
  = (Ok tt, initial [lobby]).
Proof.
  apply unknown_command_ignored.
  - repeat split.
  - left. reflexivity.
  - discriminate.
  - discriminate.
  - discriminate.
Defined.

(** X4. The ban command of an authorized caller.  Without a mention it
    only replies that someone must be mentioned.  With one it calls the
    ban once, on the mentioned member, with the author's tag in the
    reason, and never a kick; when the ban is accepted it replies that the
    ban is done; when the ban is rejected it replies that the ban failed
    and then, if that reply went through, still replies that the ban is
    done. *)
Theorem ban_flow (env : Env) (cfg : Config) (chs : list Channel) (m : Message) :
  is_command cfg m -> authorized cfg m ->
  fst (parse_command cfg (m_content m)) = "ban" ->
  trace (final (dispatch_message env cfg m) (initial chs)) =
    match m_mention m with
    | None =>
        [Called (message_reply MentionSomeone)
                (accepts env 0 (message_reply MentionSomeone))]
    | Some target =>
        let ban := member_ban target (tag (m_author m)) in
        if accepts env 0 ban then
          [Called ban true;
           Called (message_reply BanDone) (accepts env 1 (message_reply BanDone))]
        else if accepts env 1 (message_reply BanFailed) then
          [Called ban false;
           Called (message_reply BanFailed) true;
           Called (message_reply BanDone) (accepts env 2 (message_reply BanDone))]
        else
          [Called ban false;
           Called (message_reply BanFailed) false]
    end.
Proof.
  intros Hc Ha Hcmd.
  unfold final, dispatch_message, async, bind at 1.
  rewrite (onMessage_command env cfg m (initial chs) Hc Ha).
  destruct (parse_command cfg (m_content m)) as [cmd args]; cbn [fst] in Hcmd.
  subst cmd.
  change (String.eqb "ban" "clear") with false.
  change (String.eqb "ban" "ban") with true.
  change (String.eqb "ban" "kick") with false.
  destruct (m_mention m) as [target |] eqn:Hm;
    autounfold with bot; rewrite Hm; cbn; split_run; reflexivity.
Qed.

Lemma ban_flow_witness :
  trace (final (dispatch_message ban_rejects no_config (orders "!BAN @x" (Some "77")))
               (initial [lobby])) =
    [Called (member_ban "77" "Bob#0001") false;
     Called (message_reply BanFailed) true;
     Called (message_reply BanDone) true].
Proof.
  apply (ban_flow ban_rejects no_config [lobby] (orders "!BAN @x" (Some "77"))).
  - repeat split.
  - right. reflexivity.
  - reflexivity.
Defined.

(** X5. The kick command of an authorized caller behaves likewise: no
    mention, one reply asking for one; else one kick of the mentioned
    member and never a ban; the reply that the kick is done follows an
    accepted kick and also a rejected one whose failure reply went
    through. *)
Theorem kick_flow (env : Env) (cfg : Config) (chs : list Channel) (m : Message) :
  is_command cfg m -> authorized cfg m ->
  fst (parse_command cfg (m_content m)) = "kick" ->
  trace (final (dispatch_message env cfg m) (initial chs)) =
    match m_mention m with
    | None =>
        [Called (message_reply MentionSomeone)
                (accepts env 0 (message_reply MentionSomeone))]
    | Some target =>
        if accepts env 0 (member_kick target) then
          [Called (member_kick target) true;
           Called (message_reply KickDone) (accepts env 1 (message_reply KickDone))]
        else if accepts env 1 (message_reply KickFailed) then
          [Called (member_kick target) false;
           Called (message_reply KickFailed) true;
           Called (message_reply KickDone) (accepts env 2 (message_reply KickDone))]
        else
          [Called (member_kick target) false;
           Called (message_reply KickFailed) false]
    end.
Proof.
  intros Hc Ha Hcmd.
  unfold final, dispatch_message, async, bind at 1.
  rewrite (onMessage_command env cfg m (initial chs) Hc Ha).
  destruct (parse_command cfg (m_content m)) as [cmd args]; cbn [fst] in Hcmd.
  subst cmd.
  change (String.eqb "kick" "clear") with false.
  change (String.eqb "kick" "ban") with false.
  change (String.eqb "kick" "kick") with true.
  destruct (m_mention m) as [target |] eqn:Hm;
    autounfold with bot; rewrite Hm; cbn; split_run; reflexivity.
Qed.

Lemma kick_flow_witness :
  trace (final (dispatch_message all_ok no_config (orders "!kick" None))
               (initial [lobby])) =
    [Called (message_reply MentionSomeone) true].
Proof.
  apply (kick_flow all_ok no_config [lobby] (orders "!kick" None)).
  - repeat split.
  - right. reflexivity.
  - reflexivity.
Defined.

(** X6. The clear command of an authorized caller, call by call: the bulk
    deletion of the minimum of the amount and 100, whose rejection is
    swallowed; then the confirmation, which reports the amount, a double
    that is never zero; and only when the confirmation
    was accepted, a timer of 3000 ms that deletes the confirmation,
    whatever the bulk deletion did.  When the confirmation is rejected no
    timer is set. *)
Theorem clear_flow (env : Env) (cfg : Config) (chs : list Channel) (m : Message) :
  is_command cfg m -> authorized cfg m ->
  fst (parse_command cfg (m_content m)) = "clear" ->
  ch_sendable (m_channel m) = true ->
  let amt := clear_amount (snd (parse_command cfg (m_content m))) in
  let del := bulkDelete (m_channel m) (number_min amt (Fin 100)) in
  let conf := send (m_channel m) (Cleared amt) in
  let task := DeleteSent (m_channel m) (Cleared amt) in
  amt <> Fin 0
  /\ trace (final (dispatch_message env cfg m) (initial chs)) =
       Called del (accepts env 0 del)
       :: Called conf (accepts env 1 conf)
       :: (if accepts env 1 conf then
             [Scheduled 3000 task; Fired 3000 task;
              Called (message_delete (m_channel m) (Cleared amt))
                     (accepts env 2 (message_delete (m_channel m) (Cleared amt)))]
           else []).
Proof.
  intros Hc Ha Hcmd Hs. cbv zeta. split.
  { unfold clear_amount.
    destruct (parseInt _) as [[z | sg] |]; try discriminate.
    unfold number_truthy.
    destruct (Z.eqb_spec z 0); cbn [negb]; [discriminate | congruence]. }
  unfold final, dispatch_message, async, bind at 1.
  rewrite (onMessage_command env cfg m (initial chs) Hc Ha).
  destruct (parse_command cfg (m_content m)) as [cmd args]; cbn [fst snd] in *.
  subst cmd.
  change (String.eqb "clear" "clear") with true.
  change (String.eqb "clear" "ban") with false.
  change (String.eqb "clear" "kick") with false.
  autounfold with bot; rewrite Hs; cbn; split_run; reflexivity.
Qed.

Lemma clear_flow_witness :
  trace (final (dispatch_message confirm_rejects no_config (orders "!clear 0" None))
               (initial [lobby])) =
    [Called (bulkDelete lobby (Fin 5)) false;
     Called (send lobby (Cleared (Fin 5))) false].
Proof.
  apply (clear_flow confirm_rejects no_config [lobby] (orders "!clear 0" None)).
  - repeat split.
  - right. reflexivity.
  - reflexivity.
  - reflexivity.
Defined.

(* ===================================================================== *)
(** ** The interaction handler, flow by flow *)
(* ===================================================================== *)

(** X7. A panel command of a caller who is in the admin list or holds the
    manage permission builds the embed of its panel first.  When the
    builder accepts it, the confirmation is replied, and the panel is
    sent to the invoking channel only after that reply was accepted;
    when the reply is rejected the handler tries its generic error reply
    and posts no panel.  When the builder refuses the embed, as it does
    for the ticket panel whenever the configuration has no footer text,
    nothing is confirmed and no panel is posted: the only call is the
    generic error reply. *)
Theorem panel_setup_authorized (env : Env) (cfg : Config) (chs : list Channel)
    (i : Interaction) :
  sets_up_panel (i_kind i) ->
  isAdmin cfg (user_id (i_user i)) = true \/ memberPermissions i = Some true ->
  ch_sendable (i_channel i) = true ->
  let built := embed_ok (color_ok env) (embed_of cfg (i_kind i)) in
  let conf := reply (confirmation_of (i_kind i)) true in
  let panel := send (i_channel i) (panel_of (i_kind i)) in
  trace (final (dispatch env cfg i) (initial chs)) =
    (if built then
       if accepts env 0 conf then
         [Called conf true; Called panel (accepts env 1 panel)]
       else
         [Called conf false;
          Called (reply HandlerError true)
                 (accepts env 1 (reply HandlerError true))]
     else
       [Called (reply HandlerError true)
               (accepts env 0 (reply HandlerError true))])
  /\ (i_kind i = SetupTicket -> truthy (footerText cfg) = false ->
      built = false)
  /\ (i_kind i = VerifySetup ->
      built = color_ok env (or_string (embedColor cfg) "#2b2d31")).
Proof.
  destruct i as [u g ch mp k]; cbn [i_kind i_user i_channel memberPermissions].
  intros Hk Hauth Hs. cbv zeta.
  assert (Hden : denied cfg (user_id u) mp = false).
  { unfold denied. destruct Hauth as [-> | ->]; [| reflexivity].
    apply Bool.andb_false_r. }
  split; [| split].
  - destruct Hk as [-> | ->]; cbn [embed_of confirmation_of panel_of];
      autounfold with bot; cbn; rewrite Hden; cbn;
      destruct (embed_ok (color_ok env) _); cbn;
      destruct (accepts env 0 _); cbn; rewrite ?Hs; cbn;
      try reflexivity;
      destruct (accepts env 1 _); reflexivity.
  - intros -> Hf. apply (no_footer_no_embed _ cfg); [exact Hf | reflexivity].
  - intros ->. unfold embed_ok, embed_of, verify_embed; cbn.
    apply Bool.andb_true_r.
Qed.

Lemma panel_setup_authorized_witness :
  trace (final (dispatch all_ok admins_42 (admin_press SetupTicket))
               (initial [lobby])) =
    [Called (reply PanelCreated true) true; Called (send lobby TicketPanel) true]
  /\ trace (final (dispatch all_ok no_config (manager_press SetupTicket))
                  (initial [lobby])) =
       [Called (reply HandlerError true) true]
  /\ trace (final (dispatch all_ok no_config (manager_press VerifySetup))
                  (initial [lobby])) =
       [Called (reply VerifyPanelCreated true) true;
        Called (send lobby VerifyPanel) true].
Proof.
  split; [| split].
  - apply (panel_setup_authorized all_ok admins_42 [lobby]
             (admin_press SetupTicket)
             (or_introl eq_refl) (or_introl eq_refl) eq_refl).
  - apply (panel_setup_authorized all_ok no_config [lobby]
             (manager_press SetupTicket)
             (or_introl eq_refl) (or_intror eq_refl) eq_refl).
  - apply (panel_setup_authorized all_ok no_config [lobby]
             (manager_press VerifySetup)
             (or_intror eq_refl) (or_intror eq_refl) eq_refl).
Defined.

(** X8. When the deferral of a ticket menu, ticket button or close button
    press is rejected, the handler stops there: it tries its generic
    error reply, creates and deletes nothing, sets no timer and leaves the
    cache as it was. *)
Theorem rejected_deferral_stops (env : Env) (cfg : Config)
    (chs : list Channel) (i : Interaction) :
  deferred_first (i_kind i) ->
  accepts env 0 (deferReply true) = false ->
  trace (final (dispatch env cfg i) (initial chs)) =
    [Called (deferReply true) false;
     Called (reply HandlerError true) (accepts env 1 (reply HandlerError true))]
  /\ channels (final (dispatch env cfg i) (initial chs)) = chs
  /\ timers (final (dispatch env cfg i) (initial chs)) = [].
Proof.
  destruct i as [u g ch mp k]; cbn [i_kind].
  intros Hk Hd.
  destruct Hk as [[[v ->] | ->] | ->];
    autounfold with bot; cbn; rewrite Hd; cbn;
    destruct (accepts env 1 _); repeat split; reflexivity.
Qed.

Lemma rejected_deferral_stops_witness :
  trace (final (dispatch defer_rejects no_config (press bob bobs_ticket CloseTicket))
               (initial [bobs_ticket])) =
    [Called (deferReply true) false; Called (reply HandlerError true) true].
Proof.
  apply (rejected_deferral_stops defer_rejects no_config [bobs_ticket]
           (press bob bobs_ticket CloseTicket)).
  - right. reflexivity.
  - reflexivity.
Defined.

(* ===================================================================== *)
(** ** The close callback *)
(* ===================================================================== *)

(** X9. The close callback contains every failure: it never throws; when
    the fetch is rejected it writes and removes no file and calls the
    deletion once; when the fetch succeeds and the write throws it
    forwards nothing, removes no file and calls the deletion once. *)
Theorem close_task_contains_failures (env : Env) (cfg : Config) (ch : Channel)
    (closer : User) (st : St) :
  let fetch := messages_fetch ch 100 in
  let write := writeFileSync (transcript_file ch)
                 (transcript (toISOString env) (firstn 100 (recent env ch))) in
  fst (close_task env cfg ch closer st) = Ok tt
  /\ (accepts env (clock st) fetch = false ->
      trace (final (close_task env cfg ch closer) st) =
        (trace st ++
         [Called fetch false;
          Called (channel_delete ch)
                 (accepts env (S (clock st)) (channel_delete ch))])%list)
  /\ (accepts env (clock st) fetch = true ->
      accepts env (S (clock st)) write = false ->
      trace (final (close_task env cfg ch closer) st) =
        (trace st ++
         [Called fetch true; Called write false;
          Called (channel_delete ch)
                 (accepts env (S (S (clock st))) (channel_delete ch))])%list).
Proof.
  cbv zeta. split; [| split].
  - run; reflexivity.
  - intros Hf. autounfold with bot; cbn. rewrite Hf; cbn.
    destruct (accepts env (S (clock st)) _); cbn; norm_trace; reflexivity.
  - intros Hf Hw. autounfold with bot; cbn. rewrite Hf; cbn.
    change (Z.to_nat 100) with 100%nat. rewrite Hw; cbn.
    destruct (accepts env (S (S (clock st))) _); cbn; norm_trace; reflexivity.
Qed.

Lemma close_task_contains_failures_witness :
  trace (final (close_task fetch_rejects no_config bobs_ticket bob)
               (initial [bobs_ticket])) =
    [Called (messages_fetch bobs_ticket 100) false;
     Called (channel_delete bobs_ticket) true].
Proof.
  destruct (close_task_contains_failures fetch_rejects no_config bobs_ticket bob
              (initial [bobs_ticket])) as (_ & Hfetch & _).
  apply Hfetch. reflexivity.
Defined.

(* ===================================================================== *)
(** ** Closing, then opening again *)
(* ===================================================================== *)

Lemma filter_cons_eq {A} (p : A -> bool) (x : A) (l : list A) :
  filter p (x :: l) = if p x then x :: filter p l else filter p l.
Proof. reflexivity. Qed.

Lemma find_cons_eq {A} (p : A -> bool) (x : A) (l : list A) :
  List.find p (x :: l) = if p x then Some x else List.find p l.
Proof. reflexivity. Qed.

Lemma filter_comm {A} (p q : A -> bool) (l : list A) :
  filter p (filter q l) = filter q (filter p l).
Proof.
  induction l as [| x l IH]; [reflexivity |].
  rewrite !filter_cons_eq.
  destruct (q x) eqn:Hq, (p x) eqn:Hp;
    rewrite ?filter_cons_eq, ?Hq, ?Hp, IH; reflexivity.
Qed.

Lemma filter_idem {A} (p : A -> bool) (l : list A) :
  filter p (filter p l) = filter p l.
Proof.
  induction l as [| x l IH]; [reflexivity |].
  rewrite !filter_cons_eq.
  destruct (p x) eqn:Hp; rewrite ?filter_cons_eq, ?Hp, IH; reflexivity.
Qed.

Lemma filter_nil_find {A} (p : A -> bool) (l : list A) :
  filter p l = [] -> List.find p l = None.
Proof.
  induction l as [| x l IH]; [reflexivity |].
  rewrite filter_cons_eq, find_cons_eq.
  destruct (p x); [discriminate | exact IH].
Qed.

Lemma find_app_none {A} (p : A -> bool) (l l' : list A) :
  List.find p l = None -> List.find p (l ++ l') = List.find p l'.
Proof.
  induction l as [| x l IH]; [reflexivity |].
  cbn [app]. rewrite !find_cons_eq.
  destruct (p x); [discriminate | exact IH].
Qed.

(** What a press of the close button does to the cache: nothing when no
    deletion was accepted, else the channels with the id of the pressed
    channel are gone. *)
Lemma close_ticket_channels (env : Env) (cfg : Config) (chs : list Channel)
    (i : Interaction) :
  i_kind i = CloseTicket ->
  (channels (final (dispatch env cfg i) (initial chs)) = chs
   /\ ~ In (Called (channel_delete (i_channel i)) true)
           (trace (final (dispatch env cfg i) (initial chs))))
  \/ channels (final (dispatch env cfg i) (initial chs)) =
       filter (other_than (i_channel i)) chs.
Proof.
  destruct i as [u g ch mp k]; cbn [i_kind i_channel]. intros ->.
  unfold other_than.
  run; rewrite ?filter_idem;
    first [ right; reflexivity
          | left; split; [reflexivity | intros H; in_cases H] ].
Qed.

(** X11. Closing frees the name: when the only ticket channel of a user
    is closed and its deletion is accepted, the cache holds no ticket
    channel of that user any more, and the user's next open-ticket press
    (deferral accepted) issues a creation call again. *)
Theorem close_then_open (env env' : Env) (cfg : Config) (chs : list Channel)
    (closing opening : Interaction) :
  i_kind closing = CloseTicket ->
  opens_ticket (i_kind opening) ->
  tickets_of (i_user opening) chs = [i_channel closing] ->
  In (Called (channel_delete (i_channel closing)) true)
     (trace (final (dispatch env cfg closing) (initial chs))) ->
  accepts env' 0 (deferReply true) = true ->
  let after := channels (final (dispatch env cfg closing) (initial chs)) in
  let o := ticket_opts cfg (i_guild_id opening) (i_user opening) in
  tickets_of (i_user opening) after = []
  /\ filter is_create (trace (final (dispatch env' cfg opening) (initial after))) =
       [Called (channels_create o) (accepts env' 1 (channels_create o))].
Proof.
  intros Hc Ho Honly Hdel Hd. cbv zeta.
  assert (Hafter :
    tickets_of (i_user opening)
      (channels (final (dispatch env cfg closing) (initial chs))) = []).
  { destruct (close_ticket_channels env cfg chs closing Hc) as [[_ Hno] | ->].
    - contradiction.
    - unfold tickets_of in *. rewrite filter_comm, Honly.
      unfold filter, other_than. rewrite String.eqb_refl. reflexivity. }
  split; [exact Hafter |].
  apply open_ticket_creates_once; [exact Ho | | exact Hd].
  apply filter_nil_find. exact Hafter.
Qed.

Lemma close_then_open_witness :
  tickets_of bob
    (channels (final (dispatch all_ok no_config (press bob bobs_ticket CloseTicket))
                     (initial [lobby; bobs_ticket]))) = []
  /\ filter is_create
       (trace (final (dispatch all_ok no_config (press bob lobby TicketButton))
                (initial
                   (channels
                      (final (dispatch all_ok no_config
                                (press bob bobs_ticket CloseTicket))
                             (initial [lobby; bobs_ticket])))))) =
       [Called (channels_create (ticket_opts no_config "100" bob)) true].
Proof.
  apply (close_then_open all_ok all_ok no_config [lobby; bobs_ticket]
           (press bob bobs_ticket CloseTicket) (press bob lobby TicketButton)).
  - reflexivity.
  - right. reflexivity.
  - reflexivity.
  - vm_compute. do 6 right. left. reflexivity.
  - reflexivity.
Defined.

(** X12. No rollback, and its consequence: when the channel was created
    and then the embed of the ticket is refused by the builder, or the
    embed is built and the introductory message is rejected, the user is
    told that the creation failed, the channel stays, and the user's
    next open-ticket press is answered with that leftover channel as the
    open ticket. *)
Theorem failed_intro_blocks_retry (env env' : Env) (cfg : Config)
    (chs : list Channel) (i : Interaction) :
  opens_ticket (i_kind i) ->
  List.find (is_ticket_of (i_user i)) chs = None ->
  let u := i_user i in
  let o := ticket_opts cfg (i_guild_id i) u in
  let ch := {| ch_id := new_id env 1; ch_name := ticket_name u;
               ch_sendable := true |} in
  let built :=
    embed_ok (color_ok env) (ticket_embed cfg u (ticket_reason (i_kind i))) in
  let intro :=
    send ch (TicketIntro u (ticket_reason (i_kind i)) (rolesToMention cfg)) in
  accepts env 0 (deferReply true) = true ->
  accepts env 1 (channels_create o) = true ->
  built = false \/ accepts env 2 intro = false ->
  accepts env' 0 (deferReply true) = true ->
  let st1 := final (dispatch env cfg i) (initial chs) in
  trace st1 =
    Called (deferReply true) true
    :: Called (channels_create o) true
    :: (if built then
          [Called intro false;
           Called (editReply CreateError true)
                  (accepts env 3 (editReply CreateError true))]
        else
          [Called (editReply CreateError true)
                  (accepts env 2 (editReply CreateError true))])
  /\ channels st1 = (chs ++ [ch])%list
  /\ trace (final (dispatch env' cfg i) (initial (channels st1))) =
       [Called (deferReply true) true;
        Called (editReply (HasOpenTicket ch) true)
               (accepts env' 1 (editReply (HasOpenTicket ch) true))].
Proof.
  destruct i as [u g c mp k]; cbn [i_kind i_user i_guild_id].
  intros Hk Hnone. cbv zeta. rewrite <- (created_name cfg g u).
  intros Hd Hc Hfail Hd'.
  assert (Hfirst :
    trace (final (dispatch env cfg
                    {| i_user := u; i_guild_id := g; i_channel := c;
                       memberPermissions := mp; i_kind := k |}) (initial chs)) =
      Called (deferReply true) true
      :: Called (channels_create (ticket_opts cfg g u)) true
      :: (if embed_ok (color_ok env) (ticket_embed cfg u (ticket_reason k)) then
            [Called (send {| ch_id := new_id env 1;
                             ch_name := o_name (ticket_opts cfg g u);
                             ch_sendable := true |}
                          (TicketIntro u (ticket_reason k) (rolesToMention cfg)))
                    false;
             Called (editReply CreateError true)
                    (accepts env 3 (editReply CreateError true))]
          else
            [Called (editReply CreateError true)
                    (accepts env 2 (editReply CreateError true))])
    /\ channels (final (dispatch env cfg
                    {| i_user := u; i_guild_id := g; i_channel := c;
                       memberPermissions := mp; i_kind := k |}) (initial chs)) =
       (chs ++ [{| ch_id := new_id env 1;
                   ch_name := o_name (ticket_opts cfg g u);
                   ch_sendable := true |}])%list).
  { destruct Hk as [[v ->] | ->]; cbn [ticket_reason] in *;
      autounfold with bot; cbn; rewrite Hd; cbn; rewrite Hnone; cbn;
      rewrite Hc; cbn;
      (destruct (embed_ok (color_ok env) _); cbn;
       [destruct Hfail as [Hfail | Hfail]; [discriminate Hfail |];
        rewrite Hfail; cbn; destruct (accepts env 3 _)
       | destruct (accepts env 2 (editReply CreateError true))]);
      split; reflexivity. }
  destruct Hfirst as [Htr Hch]. split; [exact Htr |]. split; [exact Hch |].
  rewrite Hch.
  assert (Hfind :
    List.find (is_ticket_of u)
      (chs ++ [{| ch_id := new_id env 1;
                  ch_name := o_name (ticket_opts cfg g u);
                  ch_sendable := true |}]) =
    Some {| ch_id := new_id env 1; ch_name := o_name (ticket_opts cfg g u);
            ch_sendable := true |}).
  { rewrite (find_app_none _ _ _ Hnone). unfold List.find.
    rewrite own_ticket_matches; [reflexivity | apply created_name]. }
  destruct Hk as [[v ->] | ->];
    autounfold with bot; cbn; rewrite Hd'; cbn; rewrite Hfind; cbn;
    destruct (accepts env' 1 _); reflexivity.
Qed.

Lemma failed_intro_blocks_retry_witness :
  trace (final (dispatch all_ok with_footer (press bob lobby TicketButton))
          (initial
             (channels (final (dispatch intro_rejects with_footer
                                 (press bob lobby TicketButton))
                              (initial [lobby]))))) =
    [Called (deferReply true) true;
     Called (editReply (HasOpenTicket bobs_new_ticket) true) true]
  /\ trace (final (dispatch all_ok no_config (press bob lobby TicketButton))
                  (initial [lobby])) =
       [Called (deferReply true) true;
        Called (channels_create (ticket_opts no_config "100" bob)) true;
        Called (editReply CreateError true) true].
Proof.
  split.
  - destruct (failed_intro_blocks_retry intro_rejects all_ok with_footer [lobby]
                (press bob lobby TicketButton) (or_intror eq_refl) eq_refl
                eq_refl eq_refl (or_intror eq_refl) eq_refl)
      as (_ & _ & Hretry).
    exact Hretry.
  - destruct (failed_intro_blocks_retry all_ok all_ok no_config [lobby]
                (press bob lobby TicketButton) (or_intror eq_refl) eq_refl
                eq_refl eq_refl (or_introl eq_refl) eq_refl)
      as (Hfirst & _).
    exact Hfirst.
Defined.

(* ===================================================================== *)
(** ** Who may see a ticket, and who is refused one *)
(* ===================================================================== *)

(** X13. The overwrites of a new ticket channel grant nothing beyond the
    claim: every entry is the denial for the guild id, the permission of
    the requesting user, or the permission of a configured handler role
    (the configured value itself, or an element of the configured
    array); no entry allows [ManageGuild], and the guild id is the only
    id that is denied anything. *)
Theorem ticket_access_limited (cfg : Config) (gid : string) (u : User)
    (ow : Overwrite) :
  In ow (o_overwrites (ticket_opts cfg gid u)) ->
  (ow = deny_view (JStr gid)
   \/ ow = allow_view_send (JStr (user_id u))
   \/ exists r,
        ow = allow_view_send r
        /\ (handlersRole cfg = Some r
            \/ exists l, handlersRole cfg = Some (JArr l) /\ In r l))
  /\ ~ In ManageGuild (ow_allow ow)
  /\ (ow_deny ow <> [] -> ow_id ow = JStr gid).
Proof.
  intros Hin.
  assert (Hcases :
    ow = deny_view (JStr gid)
    \/ ow = allow_view_send (JStr (user_id u))
    \/ exists r,
         ow = allow_view_send r
         /\ (handlersRole cfg = Some r
             \/ exists l, handlersRole cfg = Some (JArr l) /\ In r l)).
  { unfold ticket_opts in Hin; cbn [o_overwrites] in Hin.
    apply in_app_or in Hin. destruct Hin as [[<- | [<- | []]] | Hin].
    - left. reflexivity.
    - right; left. reflexivity.
    - right; right. unfold handler_overwrites in Hin.
      destruct (handlersRole cfg) as [v |] eqn:Hv; [| contradiction].
      destruct v as [| b | n | s | items | fields];
        try (destruct (truthy _); [| contradiction];
             destruct Hin as [<- | []]; eexists; split;
             [reflexivity | left; reflexivity]).
      destruct items as [| r rs].
      + destruct Hin as [<- | []]. eexists; split; [reflexivity | left; reflexivity].
      + apply in_map_iff in Hin. destruct Hin as (r' & <- & Hr').
        exists r'. split; [reflexivity |]. right. eexists; split; [reflexivity | exact Hr']. }
  split; [exact Hcases |].
  destruct Hcases as [-> | [-> | (r & -> & _)]]; cbn; split.
  - intros [].
  - reflexivity.
  - intros [H | [H | []]]; discriminate H.
  - intros H; exfalso; apply H; reflexivity.
  - intros [H | [H | []]]; discriminate H.
  - intros H; exfalso; apply H; reflexivity.
Qed.

Lemma ticket_access_limited_witness :
  ~ In ManageGuild (ow_allow (allow_view_send (JStr "502"))).
Proof.
  apply (ticket_access_limited staffed "100" bob (allow_view_send (JStr "502"))).
  cbn. right; right; right; left. reflexivity.
Defined.

(** X14. The lookup of line 263 compares names in lower case on both
    sides: a channel whose name matches [ticket-] and the user name only
    up to case, for instance the ticket channel of another user whose
    name differs in case alone, makes the open-ticket operation create
    nothing and, once the deferral is accepted, answer with a channel of
    the cache as the open ticket. *)
Theorem open_refused_up_to_case (env : Env) (cfg : Config) (chs : list Channel)
    (i : Interaction) (other : User) (c : Channel) :
  opens_ticket (i_kind i) ->
  In c chs ->
  toLowerCase (username other) = toLowerCase (username (i_user i)) ->
  toLowerCase (ch_name c) = ticket_name other ->
  count is_create (trace (final (dispatch env cfg i) (initial chs))) = O
  /\ channels (final (dispatch env cfg i) (initial chs)) = chs
  /\ (accepts env 0 (deferReply true) = true ->
      exists ex,
        In ex chs
        /\ trace (final (dispatch env cfg i) (initial chs)) =
             [Called (deferReply true) true;
              Called (editReply (HasOpenTicket ex) true)
                     (accepts env 1 (editReply (HasOpenTicket ex) true))]).
Proof.
  intros Hk Hin Huser Hname.
  assert (Hc : is_ticket_of (i_user i) c = true).
  { unfold is_ticket_of, ticket_name in *. rewrite Hname, Huser.
    apply String.eqb_refl. }
  destruct (find_exists _ _ _ Hin Hc) as [ex Hfind].
  destruct (find_some _ _ Hfind) as [Hex _].
  destruct i as [u g ch mp k]; cbn [i_kind i_user] in *.
  split; [| split].
  - destruct Hk as [[v ->] | ->]; run_with Hfind; reflexivity.
  - destruct Hk as [[v ->] | ->]; run_with Hfind; reflexivity.
  - intros Hd. exists ex. split; [exact Hex |].
    destruct Hk as [[v ->] | ->];
      autounfold with bot; cbn; rewrite Hd; cbn; rewrite Hfind; cbn;
      destruct (accepts env 1 _); reflexivity.
Qed.

Lemma open_refused_up_to_case_witness :
  trace (final (dispatch all_ok no_config (press bob_upper lobby TicketButton))
               (initial [lobby; bobs_ticket])) =
    [Called (deferReply true) true;
     Called (editReply (HasOpenTicket bobs_ticket) true) true].
Proof.
  destruct (open_refused_up_to_case all_ok no_config [lobby; bobs_ticket]
              (press bob_upper lobby TicketButton) bob bobs_ticket)
    as (_ & _ & Htr).
  - right. reflexivity.
  - right; left. reflexivity.
  - reflexivity.
  - reflexivity.
  - destruct (Htr eq_refl) as (ex & Hex & H).
    rewrite H.
    destruct Hex as [<- | [<- | []]].
    + vm_compute in H. discriminate H.
    + reflexivity.
Defined.

(* ===================================================================== *)
(** ** Any number of calls of the responder *)
(* ===================================================================== *)

Lemma safeReply_acked (env : Env) (t : Text) (e : bool) (st : St) :
  acked st = true ->
  exists b st',
    safeReply env t e st = (Ok tt, st')
    /\ trace st' = (trace st ++ [Called (editReply t e) b])%list
    /\ acked st' = true.
Proof.
  unfold acked. destruct st as [chs r d n tr tm]; cbn [replied deferred trace].
  intros H.
  destruct r, d; try discriminate H; autounfold with bot; cbn;
    destruct (accepts env n _); cbn; do 2 eexists;
    (split; [reflexivity |]); (split; reflexivity).
Qed.

Lemma safeReply_fresh (env : Env) (t : Text) (e : bool) (st : St) :
  acked st = false ->
  exists st',
    safeReply env t e st = (Ok tt, st')
    /\ trace st' =
         (trace st ++ [Called (reply t e) (accepts env (clock st) (reply t e))])%list
    /\ acked st' = accepts env (clock st) (reply t e).
Proof.
  unfold acked. destruct st as [chs r d n tr tm]; cbn [replied deferred trace clock].
  intros H.
  destruct r, d; try discriminate H; autounfold with bot; cbn;
    destruct (accepts env n _); cbn; eexists;
    (split; [reflexivity |]); (split; reflexivity).
Qed.

Lemma safeReply_all_acked (env : Env) (l : list (Text * bool)) (st : St) :
  acked st = true ->
  exists new,
    fst (safeReply_all env l st) = Ok tt
    /\ trace (final (safeReply_all env l) st) = (trace st ++ new)%list
    /\ List.length new = List.length l
    /\ forallb is_edit_event new = true.
Proof.
  revert st. induction l as [| [t e] l IH]; intros st Hack.
  - exists []. cbn. rewrite app_nil_r. repeat split.
  - destruct (safeReply_acked env t e st Hack) as (b & st1 & Hrun & Htr & Hack1).
    destruct (IH st1 Hack1) as (new & Hok & Htr' & Hlen & Hall).
    exists (Called (editReply t e) b :: new).
    unfold final in *. cbn [safeReply_all]. unfold bind. rewrite Hrun.
    rewrite Htr', Htr, <- app_assoc. cbn [app List.length forallb is_edit_event].
    rewrite Hlen, Hall. repeat split. exact Hok.
Qed.

Lemma edits_hold_no_reply (new : list Event) :
  forallb is_edit_event new = true -> count is_accepted_reply new = O.
Proof.
  unfold count. induction new as [| e new IH]; [reflexivity |].
  cbn [forallb]. intros H. apply Bool.andb_true_iff in H. destruct H as [He Hn].
  change (filter is_accepted_reply (e :: new))
    with (if is_accepted_reply e then e :: filter is_accepted_reply new
          else filter is_accepted_reply new).
  destruct e as [[] ok | |]; try discriminate He. cbn. apply IH. exact Hn.
Qed.

(** X15. However many times [safeReply] is called in a row on one
    interaction, it issues one call per call and never throws, and the
    platform accepts at most one first reply; on an interaction that was
    already replied or deferred every call is an edit. *)
Theorem safeReply_all_one_reply (env : Env) (l : list (Text * bool)) (st : St) :
  exists new,
    fst (safeReply_all env l st) = Ok tt
    /\ trace (final (safeReply_all env l) st) = (trace st ++ new)%list
    /\ List.length new = List.length l
    /\ (count is_accepted_reply new <= 1)%nat
    /\ (acked st = true -> forallb is_edit_event new = true).
Proof.
  revert st. induction l as [| [t e] l IH]; intros st.
  - exists []. cbn. rewrite app_nil_r. repeat split.
    unfold count, filter; cbn. lia.
  - destruct (acked st) eqn:Hack.
    + destruct (safeReply_all_acked env ((t, e) :: l) st Hack)
        as (new & Hok & Htr & Hlen & Hall).
      exists new. repeat split; try assumption.
      * rewrite (edits_hold_no_reply new Hall). lia.
      * intros _. exact Hall.
    + destruct (safeReply_fresh env t e st Hack) as (st1 & Hrun & Htr & Hack1).
      destruct (accepts env (clock st) (reply t e)) eqn:Hacc.
      * destruct (safeReply_all_acked env l st1 Hack1)
          as (new & Hok & Htr' & Hlen & Hall).
        exists (Called (reply t e) true :: new).
        unfold final in *. cbn [safeReply_all]. unfold bind. rewrite Hrun.
        rewrite Htr', Htr, <- app_assoc. cbn [app List.length].
        rewrite Hlen. repeat split; try assumption; try discriminate.
        unfold count.
        change (filter is_accepted_reply (Called (reply t e) true :: new))
          with (Called (reply t e) true :: filter is_accepted_reply new).
        cbn [List.length]. fold (count is_accepted_reply new).
        rewrite (edits_hold_no_reply new Hall). lia.
      * destruct (IH st1) as (new & Hok & Htr' & Hlen & Hone & _).
        exists (Called (reply t e) false :: new).
        unfold final in *. cbn [safeReply_all]. unfold bind. rewrite Hrun.
        rewrite Htr', Htr, <- app_assoc. cbn [app List.length].
        rewrite Hlen. repeat split; try assumption; try discriminate.
Qed.

Lemma safeReply_all_one_reply_witness :
  exists new,
    trace (final (safeReply_all all_ok
                    [(PanelCreated, true); (TicketPanel, true); (ClosingNotice, false)])
                 (acknowledged [])) = new
    /\ forallb is_edit_event new = true.
Proof.
  destruct (safeReply_all_one_reply all_ok
              [(PanelCreated, true); (TicketPanel, true); (ClosingNotice, false)]
              (acknowledged []))
    as (new & _ & Htr & _ & _ & Hedits).
  exists new. split; [exact Htr | apply Hedits; reflexivity].
Defined.

(* ===================================================================== *)
(** ** Welcome and logs *)
(* ===================================================================== *)

Create HintDb aux.

#[local] Hint Unfold
  onGuildMemberAdd onGuildMemberRemove onMessageDelete sends post
  g_try g_bind g_ret g_throw g_get g_modify g_await g_catch_noop
  : aux.

Lemma lookup_found (id : option string) (chs : list Channel) (c : Channel) :
  lookup id chs = Some c -> In c chs /\ id = Some (ch_id c).
Proof.
  destruct id as [k |]; cbn [lookup]; [| discriminate].
  intros H. destruct (find_some _ _ H) as [Hin Hid].
  apply String.eqb_eq in Hid. subst k. split; [exact Hin | reflexivity].
Qed.

(** X16. A member who joins while the welcome channel is missing from the
    configuration or from the cache is neither greeted nor logged: the
    handler returns before the line that writes to the log channel, even
    when that channel is configured and cached. *)
Theorem join_without_welcome_channel (env : Env) (welcome : option string)
    (cfg : Config) (chs : list Channel) (member : User) :
  lookup welcome chs = None ->
  onGuildMemberAdd env welcome cfg chs member [] = (Ok tt, []).
Proof.
  intros H. unfold onGuildMemberAdd, g_try. rewrite H. reflexivity.
Qed.

Lemma join_without_welcome_channel_witness :
  onGuildMemberAdd all_ok None logs_to_lobby [lobby] bob [] = (Ok tt, [])
  /\ onGuildMemberAdd all_ok (Some "55") logs_to_lobby [lobby] bob []
     = (Ok tt, []).
Proof.
  split; apply join_without_welcome_channel; reflexivity.
Defined.

Lemma join_sends_eq (env : Env) (welcome : option string) (cfg : Config)
    (chs : list Channel) (member : User) (w : Channel) :
  lookup welcome chs = Some w ->
  onGuildMemberAdd env welcome cfg chs member [] =
    (Ok tt,
     if embed_ok (color_ok env) (welcome_embed cfg member) then
       if ch_sendable w then
         (w, WelcomeEmbed member)
         :: match lookup (logChannel cfg) chs with
            | Some l => if ch_sendable l then [(l, JoinedLine (tag member))] else []
            | None => []
            end
       else []
     else []).
Proof.
  intros Hw. autounfold with aux. rewrite Hw.
  destruct (embed_ok (color_ok env) (welcome_embed cfg member)); cbn;
    [| reflexivity].
  destruct (ch_sendable w); cbn; [| reflexivity].
  destruct (lookup (logChannel cfg) chs) as [l |]; cbn; [| reflexivity].
  destruct (ch_sendable l); reflexivity.
Qed.

(** X17. A member who joins while the welcome channel is cached: the
    handler never throws; it sends at most two messages, the greeting to
    the welcome channel first and the join line to the log channel
    second, each to a channel of the cache whose id is the configured
    one; and the join is logged only if the greeting was sent.  The
    embed of the greeting is built first: when the builder refuses it, as
    it does whenever the configuration has no footer text, the error is
    swallowed and nothing is sent, the join line included. *)
Theorem join_sends (env : Env) (welcome : option string) (cfg : Config)
    (chs : list Channel) (member : User) (w : Channel) :
  lookup welcome chs = Some w ->
  let built := embed_ok (color_ok env) (welcome_embed cfg member) in
  let out := sends (onGuildMemberAdd env welcome cfg chs member) in
  fst (onGuildMemberAdd env welcome cfg chs member []) = Ok tt
  /\ (out = []
      \/ out = [(w, WelcomeEmbed member)]
      \/ exists l,
           lookup (logChannel cfg) chs = Some l
           /\ out = [(w, WelcomeEmbed member); (l, JoinedLine (tag member))])
  /\ (built = true -> ch_sendable w = true ->
      hd_error out = Some (w, WelcomeEmbed member))
  /\ (ch_sendable w = false -> out = [])
  /\ (built = false -> out = [])
  /\ (truthy (footerText cfg) = false -> built = false)
  /\ (forall l, built = true -> ch_sendable w = true ->
        lookup (logChannel cfg) chs = Some l -> ch_sendable l = true ->
        out = [(w, WelcomeEmbed member); (l, JoinedLine (tag member))]).
Proof.
  intros Hw. cbv zeta.
  rewrite (surjective_pairing (onGuildMemberAdd env welcome cfg chs member [])).
  unfold sends. rewrite (join_sends_eq env welcome cfg chs member w Hw).
  cbn [fst snd].
  assert (Hfoot : truthy (footerText cfg) = false ->
                  embed_ok (color_ok env) (welcome_embed cfg member) = false).
  { intros Hf. apply (no_footer_no_embed _ cfg); [exact Hf | reflexivity]. }
  destruct (embed_ok (color_ok env) (welcome_embed cfg member)) eqn:He.
  - destruct (ch_sendable w) eqn:Hs.
    + destruct (lookup (logChannel cfg) chs) as [l |] eqn:Hl.
      * destruct (ch_sendable l) eqn:Hsl.
        -- split; [reflexivity |]. split.
           { right; right. exists l. split; reflexivity. }
           split; [reflexivity |]. split; [discriminate |].
           split; [discriminate |]. split; [exact Hfoot |].
           intros l' _ _ Hl' _. injection Hl' as <-. reflexivity.
        -- split; [reflexivity |]. split; [right; left; reflexivity |].
           split; [reflexivity |]. split; [discriminate |].
           split; [discriminate |]. split; [exact Hfoot |].
           intros l' _ _ Hl' Hs'. injection Hl' as <-. congruence.
      * split; [reflexivity |]. split; [right; left; reflexivity |].
        split; [reflexivity |]. split; [discriminate |].
        split; [discriminate |]. split; [exact Hfoot |]. discriminate.
    + split; [reflexivity |]. split; [left; reflexivity |].
      split; [discriminate |]. split; [reflexivity |].
      split; [discriminate |]. split; [exact Hfoot |]. discriminate.
  - split; [reflexivity |]. split; [left; reflexivity |].
    split; [discriminate |]. split; [reflexivity |].
    split; [reflexivity |]. split; [reflexivity |]. discriminate.
Qed.

Lemma join_sends_witness :
  sends (onGuildMemberAdd all_ok (Some "55") logs_to_lobby
           [lobby; welcome_hall] bob)
  = [(welcome_hall, WelcomeEmbed bob); (lobby, JoinedLine "Bob#0001")]
  /\ sends (onGuildMemberAdd all_ok (Some "55") no_config
              [lobby; welcome_hall] bob) = [].
Proof.
  split.
  - destruct (join_sends all_ok (Some "55") logs_to_lobby [lobby; welcome_hall]
                bob welcome_hall eq_refl) as (_ & _ & _ & _ & _ & _ & Hboth).
    apply (Hboth lobby); reflexivity.
  - destruct (join_sends all_ok (Some "55") no_config [lobby; welcome_hall]
                bob welcome_hall eq_refl) as (_ & _ & _ & _ & Hnone & Hfoot & _).
    apply Hnone. apply Hfoot. reflexivity.
Defined.

Lemma deletion_eq (cfg : Config) (chs : list Channel) (m : Deleted) :
  onMessageDelete cfg chs m [] =
    (Ok tt,
     if d_in_guild m then
       match lookup (logChannel cfg) chs with
       | Some l =>
           if ch_sendable l then
             [(l, DeletedLine
                    (match d_author_tag m with Some t => t | None => "Unknown" end)
                    (if truthy_str (d_content m)
                     then match d_content m with Some c => c | None => "" end
                     else "[embed/attachment]"))]
           else []
       | None => []
       end
     else []).
Proof.
  autounfold with aux.
  destruct (d_in_guild m); cbn; [| reflexivity].
  destruct (lookup (logChannel cfg) chs) as [l |]; cbn; [| reflexivity].
  destruct (ch_sendable l); reflexivity.
Qed.

(** X18. A deleted message is logged with one line at most, sent to the
    cached channel whose id is the configured log channel, and only for a
    message of a guild; a message whose author is not known is attributed
    to [Unknown], and one whose content is missing or empty is shown as
    the placeholder.  The handler never throws. *)
Theorem deletion_logged (cfg : Config) (chs : list Channel) (m : Deleted) :
  let out := sends (onMessageDelete cfg chs m) in
  fst (onMessageDelete cfg chs m []) = Ok tt
  /\ (List.length out <= 1)%nat
  /\ (forall c n, In (c, n) out ->
        d_in_guild m = true
        /\ lookup (logChannel cfg) chs = Some c
        /\ exists author shown,
             n = DeletedLine author shown
             /\ (d_author_tag m = None -> author = "Unknown")
             /\ (forall t, d_author_tag m = Some t -> author = t)
             /\ (truthy_str (d_content m) = false -> shown = "[embed/attachment]")
             /\ (forall t, d_content m = Some t -> t <> "" -> shown = t))
  /\ (forall l, d_in_guild m = true ->
        lookup (logChannel cfg) chs = Some l -> ch_sendable l = true ->
        List.length out = 1%nat).
Proof.
  cbv zeta.
  rewrite (surjective_pairing (onMessageDelete cfg chs m [])).
  unfold sends. rewrite (deletion_eq cfg chs m). cbn [fst snd].
  split; [reflexivity |].
  destruct (d_in_guild m) eqn:Hg.
  - destruct (lookup (logChannel cfg) chs) as [l |] eqn:Hl.
    + destruct (ch_sendable l) eqn:Hs.
      * split; [cbn; lia |]. split.
        { intros c n [H | []]. injection H as <- <-.
          split; [reflexivity |]. split; [reflexivity |].
          do 2 eexists. split; [reflexivity |].
          split; [intros ->; reflexivity |].
          split; [intros t ->; reflexivity |].
          split; [intros ->; reflexivity |].
          intros t -> Ht. unfold truthy_str.
          destruct (String.eqb_spec t ""); [contradiction | reflexivity]. }
        intros l' _ _ _. reflexivity.
      * split; [cbn; lia |]. split; [intros c n [] |].
        intros l' _ Hl' Hs'. injection Hl' as <-. congruence.
    + split; [cbn; lia |]. split; [intros c n [] |].
      intros l' _ Hl'. discriminate Hl'.
  - split; [cbn; lia |]. split; [intros c n [] |].
    intros l' Hg'. discriminate Hg'.
Qed.

Lemma deletion_logged_witness :
  sends (onMessageDelete logs_to_lobby [lobby] partial_deleted)
  = [(lobby, DeletedLine "Unknown" "[embed/attachment]")].
Proof.
  destruct (deletion_logged logs_to_lobby [lobby] partial_deleted)
    as (_ & _ & Hin & Hone).
  specialize (Hone lobby eq_refl eq_refl eq_refl).
  destruct (sends (onMessageDelete logs_to_lobby [lobby] partial_deleted))
    as [| [c n] [| x r]] eqn:E; try discriminate Hone.
  destruct (Hin c n (or_introl eq_refl))
    as (_ & Hc & author & shown & -> & Ha & _ & Hs & _).
  injection Hc as <-. rewrite (Ha eq_refl), (Hs eq_refl). reflexivity.
Defined.

(** X19. A member who leaves is logged with one line to the cached log
    channel, or not at all when that channel is not configured, not
    cached or cannot be sent to; the handler never throws and writes
    nowhere else. *)
Theorem leave_logged (cfg : Config) (chs : list Channel) (member : User) :
  let out := sends (onGuildMemberRemove cfg chs member) in
  fst (onGuildMemberRemove cfg chs member []) = Ok tt
  /\ (forall c n, In (c, n) out ->
        lookup (logChannel cfg) chs = Some c /\ n = LeftLine (tag member))
  /\ (lookup (logChannel cfg) chs = None -> out = [])
  /\ (forall l, lookup (logChannel cfg) chs = Some l ->
        out = if ch_sendable l then [(l, LeftLine (tag member))] else []).
Proof.
  cbv zeta.
  assert (E : onGuildMemberRemove cfg chs member [] =
    (Ok tt,
     match lookup (logChannel cfg) chs with
     | Some l => if ch_sendable l then [(l, LeftLine (tag member))] else []
     | None => []
     end)).
  { autounfold with aux.
    destruct (lookup (logChannel cfg) chs) as [l |]; cbn; [| reflexivity].
    destruct (ch_sendable l); reflexivity. }
  unfold sends. rewrite E. cbn [fst snd].
  split; [reflexivity |].
  destruct (lookup (logChannel cfg) chs) as [l |] eqn:Hl.
  - split.
    { destruct (ch_sendable l); [| intros c n []].
      intros c n [H | []]. injection H as <- <-. split; reflexivity. }
    split; [discriminate |].
    intros l' Hl'. injection Hl' as <-. reflexivity.
  - split; [intros c n [] |]. split; [reflexivity | discriminate].
Qed.

Lemma leave_logged_witness :
  sends (onGuildMemberRemove logs_to_lobby [lobby] bob)
  = [(lobby, LeftLine "Bob#0001")].
Proof.
  destruct (leave_logged logs_to_lobby [lobby] bob) as (_ & _ & _ & Hl).
  apply (Hl lobby). reflexivity.
Defined.

(* ===================================================================== *)
(** ** The verify button *)
(* ===================================================================== *)

Create HintDb verify.

#[local] Hint Unfold
  verify_calls onVerifyButton verify_try verify_catch verify_reply
  verify_deferReply verify_editReply member_roles_add v_perform v_settle
  v_set_replied v_set_deferred v_initial
  g_try g_bind g_ret g_throw g_get g_modify g_await g_catch_noop
  : verify.

Lemma has_role_spec (r : string) (roles : list string) :
  existsb (String.eqb r) roles = true <-> In r roles.
Proof.
  rewrite existsb_exists. split.
  - intros (x & Hin & Hx). apply String.eqb_eq in Hx. subst x. exact Hin.
  - intros Hin. exists r. split; [exact Hin | apply String.eqb_refl].
Qed.

(** X20. A press of the verify button on a fresh interaction.  When the
    deferral is rejected only the generic error reply is tried.  Else:
    with no verify role configured (missing or empty) the reply says so
    and no role is added; a member who holds the role is told so and no
    role is added; any other member gets one call that adds the
    configured role, and the reply then says that the role was granted
    whether that call was accepted or rejected.  In every case the role
    is added at most once. *)
Theorem verify_flow (ok : nat -> VCall -> bool) (role : option string)
    (roles : list string) :
  let tr := verify_calls ok role roles in
  (List.length (filter is_roles_add tr) <= 1)%nat
  /\ (ok 0%nat (v_deferReply true) = false ->
      tr = [(v_deferReply true, false);
            (v_reply VHandlerError true, ok 1%nat (v_reply VHandlerError true))])
  /\ (ok 0%nat (v_deferReply true) = true -> truthy_str role = false ->
      tr = [(v_deferReply true, true);
            (v_editReply VerifyNotConfigured,
             ok 1%nat (v_editReply VerifyNotConfigured))])
  /\ (forall r,
        ok 0%nat (v_deferReply true) = true -> role = Some r -> r <> "" ->
        In r roles ->
        tr = [(v_deferReply true, true);
              (v_editReply AlreadyVerified, ok 1%nat (v_editReply AlreadyVerified))])
  /\ (forall r,
        ok 0%nat (v_deferReply true) = true -> role = Some r -> r <> "" ->
        ~ In r roles ->
        tr = [(v_deferReply true, true);
              (v_roles_add r, ok 1%nat (v_roles_add r));
              (v_editReply VerifyGranted, ok 2%nat (v_editReply VerifyGranted))]).
Proof.
  cbv zeta. split; [| split; [| split; [| split]]].
  - autounfold with verify; cbn.
    destruct (ok 0%nat _); cbn.
    + destruct role as [r |]; cbn.
      * destruct (truthy_str (Some r)); cbn.
        -- destruct (existsb (String.eqb r) roles); cbn;
             repeat (match goal with
                     | |- context [ok ?n ?c] => destruct (ok n c); cbn
                     end);
             unfold filter; cbn; lia.
        -- destruct (ok 1%nat _); unfold filter; cbn; lia.
      * destruct (ok 1%nat _); unfold filter; cbn; lia.
    + destruct (ok 1%nat _); unfold filter; cbn; lia.
  - intros Hd. autounfold with verify; cbn. rewrite Hd; cbn.
    destruct (ok 1%nat _); reflexivity.
  - intros Hd Ht. autounfold with verify; cbn. rewrite Hd; cbn.
    destruct role as [r |]; cbn; [rewrite Ht; cbn |];
      destruct (ok 1%nat _); reflexivity.
  - intros r Hd -> Hr Hin. autounfold with verify; cbn. rewrite Hd; cbn.
    assert (Ht : truthy_str (Some r) = true).
    { unfold truthy_str. destruct (String.eqb_spec r ""); [contradiction | reflexivity]. }
    rewrite Ht. rewrite (proj2 (has_role_spec r roles) Hin). cbn.
    destruct (ok 1%nat _); reflexivity.
  - intros r Hd -> Hr Hin. autounfold with verify; cbn. rewrite Hd; cbn.
    assert (Ht : truthy_str (Some r) = true).
    { unfold truthy_str. destruct (String.eqb_spec r ""); [contradiction | reflexivity]. }
    rewrite Ht.
    destruct (existsb (String.eqb r) roles) eqn:Hex.
    { exfalso. apply Hin. apply has_role_spec. exact Hex. }
    cbn. destruct (ok 1%nat _); cbn; destruct (ok 2%nat _); reflexivity.
Qed.

Lemma verify_flow_witness :
  verify_calls add_rejected (Some "600") ["601"] =
    [(v_deferReply true, true);
     (v_roles_add "600", false);
     (v_editReply VerifyGranted, true)]
  /\ verify_calls add_rejected (Some "600") ["600"] =
       [(v_deferReply true, true); (v_editReply AlreadyVerified, true)]
  /\ verify_calls add_rejected (Some "") ["600"] =
       [(v_deferReply true, true); (v_editReply VerifyNotConfigured, true)].
Proof.
  split; [| split].
  - destruct (verify_flow add_rejected (Some "600") ["601"])
      as (_ & _ & _ & _ & Hadd).
    apply (Hadd "600"); [reflexivity | reflexivity | discriminate |].
    intros [H | []]. discriminate H.
  - destruct (verify_flow add_rejected (Some "600") ["600"])
      as (_ & _ & _ & Hhas & _).
    apply (Hhas "600"); [reflexivity | reflexivity | discriminate |].
    left. reflexivity.
  - destruct (verify_flow add_rejected (Some "") ["600"])
      as (_ & _ & Hnone & _).
    apply Hnone; reflexivity.
Defined.

(* ===================================================================== *)
(** ** Closing a ticket, with a log channel *)
(* ===================================================================== *)

Lemma close_ticket_run_witness :
  exists ok body,
    trace (final (dispatch all_ok no_config (press bob bobs_ticket CloseTicket))
                 (initial [lobby; bobs_ticket])) =
      ([Called (deferReply true) true;
        Called (editReply ClosingNotice false) ok;
        Scheduled 5000 (CloseTask bobs_ticket bob);
        Fired 5000 (CloseTask bobs_ticket bob)] ++ body)%list
    /\ (1 <= count is_delete body <= 2)%nat.
Proof.
  destruct (close_ticket_run all_ok no_config [lobby; bobs_ticket]
              (press bob bobs_ticket CloseTicket) eq_refl eq_refl)
    as (ok & body & Htr & _ & Hcount & _).
  exists ok, body. split; [exact Htr | exact Hcount].
Defined.

(** X21. The close callback with a log channel that is configured,
    cached and can be sent to, after a fetch and a write that succeeded:
    the transcript note, naming the channel, the closer and the file, is
    sent to the log channel before the channel is deleted; whether or not
    that send is accepted the deletion follows, then the removal of the
    file, and a second deletion only when that removal throws. *)
Theorem close_forwards_then_deletes (env : Env) (cfg : Config) (ch : Channel)
    (closer : User) (st : St) (k : string) (l : Channel) :
  let fetch := messages_fetch ch 100 in
  let file := transcript_file ch in
  let write := writeFileSync file
                 (transcript (toISOString env) (firstn 100 (recent env ch))) in
  let note := send l (TranscriptNote (ch_name ch) (tag closer) file) in
  accepts env (clock st) fetch = true ->
  accepts env (S (clock st)) write = true ->
  logChannel cfg = Some k -> k <> "" ->
  List.find (fun c => String.eqb (ch_id c) k) (channels st) = Some l ->
  ch_sendable l = true ->
  let n := clock st in
  trace (final (close_task env cfg ch closer) st) =
    (trace st ++
     [Called fetch true;
      Called write true;
      Called note (accepts env (2 + n) note);
      Called (channel_delete ch) (accepts env (3 + n) (channel_delete ch));
      Called (unlinkSync file) (accepts env (4 + n) (unlinkSync file))]
     ++ (if accepts env (4 + n) (unlinkSync file) then []
         else [Called (channel_delete ch)
                      (accepts env (5 + n) (channel_delete ch))]))%list.
Proof.
  cbv zeta. intros Hf Hw Hk Hne Hfind Hs.
  assert (Ht : truthy_str (Some k) = true).
  { unfold truthy_str. destruct (String.eqb_spec k ""); [contradiction | reflexivity]. }
  destruct st as [chs r d n tr tm]; cbn [clock trace channels] in *.
  autounfold with bot; cbn. rewrite Hf; cbn.
  change (Z.to_nat 100) with 100%nat. rewrite Hw; cbn.
  rewrite Hk, Ht; cbn. rewrite Hfind; cbn. rewrite Hs; cbn.
  destruct (accepts env (S (S n)) _); cbn;
    destruct (accepts env (S (S (S n))) _); cbn;
    destruct (accepts env (S (S (S (S n)))) _); cbn;
    try destruct (accepts env (S (S (S (S (S n))))) _); cbn;
    norm_trace; reflexivity.
Qed.

Lemma close_forwards_then_deletes_witness :
  trace (final (close_task all_ok logs_to_lobby bobs_ticket bob)
               (initial [lobby; bobs_ticket])) =
    [Called (messages_fetch bobs_ticket 100) true;
     Called (writeFileSync "transcript-7.txt" "") true;
     Called (send lobby (TranscriptNote "ticket-bob" "Bob#0001" "transcript-7.txt")) true;
     Called (channel_delete bobs_ticket) true;
     Called (unlinkSync "transcript-7.txt") true].
Proof.
  apply (close_forwards_then_deletes all_ok logs_to_lobby bobs_ticket bob
           (initial [lobby; bobs_ticket]) "1" lobby).
  - reflexivity.
  - reflexivity.
  - reflexivity.
  - discriminate.
  - reflexivity.
  - reflexivity.
Defined.
